(** * describe: resolving a database cluster and projecting its summary

    A shallow embedding of [pkg/cmd/dbcluster/describe.go]: the command's
    preparation step [Complete], the fetch-and-print loop of [Run], and the
    field projection [buildClusterInfo] over an untyped resource document. *)

From Stdlib Require Import ZArith String List.
From stdpp Require Import gmap strings list fin_maps.

Set Warnings "-register-all".
Local Open Scope string_scope.
Local Open Scope Z_scope.

(** ** Untyped documents

    The [Object] of an [unstructured.Unstructured] is a
    [map[string]interface{}]; the dynamic types that a decoded document holds
    are the ones below. *)

Inductive value : Type :=
| VNil
| VString (s : string)
| VInt64 (n : Z)
| VFloat64 (bits : Z)
| VBool (b : bool)
| VMap (m : gmap string value)
| VSlice (l : list value).

Inductive gotype : Type :=
| TString | TInt64 | TFloat64 | TBool | TMap | TSlice.

#[global] Instance gotype_eq_dec : EqDecision gotype.
Proof. solve_decision. Defined.

(** The dynamic type of an interface value; [None] for the nil interface. *)
Definition dyn_type (v : value) : option gotype :=
  match v with
  | VNil => None
  | VString _ => Some TString
  | VInt64 _ => Some TInt64
  | VFloat64 _ => Some TFloat64
  | VBool _ => Some TBool
  | VMap _ => Some TMap
  | VSlice _ => Some TSlice
  end.

(** [m[k]] on a Go map: the zero value (the nil interface) when [k] is absent. *)
Definition index (m : gmap string value) (k : string) : value :=
  match m !! k with
  | Some v => v
  | None => VNil
  end.

Record Unstructured : Type := { Object : gmap string value }.

Definition as_string (v : value) : option string :=
  match v with
  | VString s => Some s
  | _ => None
  end.

(** [obj.GetLabels()] of apimachinery: the string map under
    [metadata.labels]; the nil map when the path is absent, is not a map, or
    holds a value that is not a string. *)
Definition GetLabels (obj : Unstructured) : gmap string string :=
  match index (Object obj) "metadata" with
  | VMap metadata =>
      match index metadata "labels" with
      | VMap labels =>
          if bool_decide (map_Forall (fun _ v => dyn_type v = Some TString) labels)
          then omap as_string labels
          else ∅
      | _ => ∅
      end
  | _ => ∅
  end.

(** ** Errors and panics *)

(** Values of Go's [error] interface: a message ([errors.New], and the errors
    that the collaborators hand back), or the aggregate that
    [utilerrors.NewAggregate] builds. *)
Inductive error : Type :=
| errorString (msg : string)
| aggregate (errlist : list error).

(** [utilerrors.NewAggregate]: nil for an empty list.  The lists built by
    [Run] hold no nil error, so the filtering of nil entries is the identity. *)
Definition NewAggregate (errlist : list error) : option error :=
  match errlist with
  | [] => None
  | _ :: _ => Some (aggregate errlist)
  end.

(** The leaves that [aggregate.visit] walks, in order. *)
Fixpoint leaves (e : error) : list string :=
  match e with
  | errorString msg => [msg]
  | aggregate errlist => flat_map leaves errlist
  end.

Fixpoint dedup_msgs (seen : gset string) (msgs : list string) : list string :=
  match msgs with
  | [] => []
  | m :: rest =>
      if bool_decide (m ∈ seen) then dedup_msgs seen rest
      else m :: dedup_msgs ({[m]} ∪ seen) rest
  end.

Fixpoint join (sep : string) (l : list string) : string :=
  match l with
  | [] => ""
  | [x] => x
  | x :: rest => x ++ sep ++ join sep rest
  end.

(** [err.Error()]. *)
Definition Error (e : error) : string :=
  match e with
  | errorString msg => msg
  | aggregate [] => ""
  | aggregate _ =>
      match dedup_msgs ∅ (leaves e) with
      | [m] => m
      | ms => "[" ++ join ", " ms ++ "]"
      end
  end.

(** The run-time error of a failed type assertion [x.(T)]: the dynamic type
    of [x] ([None] for nil) and the asserted type [T]. *)
Record TypeAssertionError : Type :=
  { concrete : option gotype; asserted : gotype }.

Definition type_name (t : gotype) : string :=
  match t with
  | TString => "string"
  | TInt64 => "int64"
  | TFloat64 => "float64"
  | TBool => "bool"
  | TMap => "map[string]interface {}"
  | TSlice => "[]interface {}"
  end.

(** The message of a [runtime.TypeAssertionError] for an assertion on
    [interface{}]. *)
Definition TypeAssertionError_Error (e : TypeAssertionError) : string :=
  "interface conversion: interface {} is " ++
  match concrete e with
  | None => "nil"
  | Some t => type_name t
  end ++ ", not " ++ type_name (asserted e).

Inductive panic : Type :=
| PanicTypeAssertion (e : TypeAssertionError)
| PanicNilDereference.

(** ** The summary record

    [utils.DBClusterInfo] is declared in [pkg/utils]; the fields are the ones
    that [describe.go] reads and writes, with the types of the values it
    assigns to them. *)
Record DBClusterInfo : Type := {
  RootUser : string;
  DBPort : string;
  DBNamespace : string;
  DBCluster : string;
  Labels : string;
  Version : string;
  Instances : Z;
  ServerId : Z;
  Secret : string;
  StartTime : string;
  Status : string;
  OnlineInstances : Z;
  Topology : string;
  Engine : string;
  Storage : Z
}.

Definition set_DBNamespace (v : string) (c : DBClusterInfo) : DBClusterInfo :=
  {| RootUser := RootUser c; DBPort := DBPort c; DBNamespace := v;
     DBCluster := DBCluster c; Labels := Labels c; Version := Version c;
     Instances := Instances c; ServerId := ServerId c; Secret := Secret c;
     StartTime := StartTime c; Status := Status c;
     OnlineInstances := OnlineInstances c; Topology := Topology c;
     Engine := Engine c; Storage := Storage c |}.

Definition set_DBCluster (v : string) (c : DBClusterInfo) : DBClusterInfo :=
  {| RootUser := RootUser c; DBPort := DBPort c; DBNamespace := DBNamespace c;
     DBCluster := v; Labels := Labels c; Version := Version c;
     Instances := Instances c; ServerId := ServerId c; Secret := Secret c;
     StartTime := StartTime c; Status := Status c;
     OnlineInstances := OnlineInstances c; Topology := Topology c;
     Engine := Engine c; Storage := Storage c |}.

Definition set_Labels (v : string) (c : DBClusterInfo) : DBClusterInfo :=
  {| RootUser := RootUser c; DBPort := DBPort c; DBNamespace := DBNamespace c;
     DBCluster := DBCluster c; Labels := v; Version := Version c;
     Instances := Instances c; ServerId := ServerId c; Secret := Secret c;
     StartTime := StartTime c; Status := Status c;
     OnlineInstances := OnlineInstances c; Topology := Topology c;
     Engine := Engine c; Storage := Storage c |}.

Definition set_Version (v : string) (c : DBClusterInfo) : DBClusterInfo :=
  {| RootUser := RootUser c; DBPort := DBPort c; DBNamespace := DBNamespace c;
     DBCluster := DBCluster c; Labels := Labels c; Version := v;
     Instances := Instances c; ServerId := ServerId c; Secret := Secret c;
     StartTime := StartTime c; Status := Status c;
     OnlineInstances := OnlineInstances c; Topology := Topology c;
     Engine := Engine c; Storage := Storage c |}.

Definition set_Instances (v : Z) (c : DBClusterInfo) : DBClusterInfo :=
  {| RootUser := RootUser c; DBPort := DBPort c; DBNamespace := DBNamespace c;
     DBCluster := DBCluster c; Labels := Labels c; Version := Version c;
     Instances := v; ServerId := ServerId c; Secret := Secret c;
     StartTime := StartTime c; Status := Status c;
     OnlineInstances := OnlineInstances c; Topology := Topology c;
     Engine := Engine c; Storage := Storage c |}.

Definition set_ServerId (v : Z) (c : DBClusterInfo) : DBClusterInfo :=
  {| RootUser := RootUser c; DBPort := DBPort c; DBNamespace := DBNamespace c;
     DBCluster := DBCluster c; Labels := Labels c; Version := Version c;
     Instances := Instances c; ServerId := v; Secret := Secret c;
     StartTime := StartTime c; Status := Status c;
     OnlineInstances := OnlineInstances c; Topology := Topology c;
     Engine := Engine c; Storage := Storage c |}.

Definition set_Secret (v : string) (c : DBClusterInfo) : DBClusterInfo :=
  {| RootUser := RootUser c; DBPort := DBPort c; DBNamespace := DBNamespace c;
     DBCluster := DBCluster c; Labels := Labels c; Version := Version c;
     Instances := Instances c; ServerId := ServerId c; Secret := v;
     StartTime := StartTime c; Status := Status c;
     OnlineInstances := OnlineInstances c; Topology := Topology c;
     Engine := Engine c; Storage := Storage c |}.

Definition set_StartTime (v : string) (c : DBClusterInfo) : DBClusterInfo :=
  {| RootUser := RootUser c; DBPort := DBPort c; DBNamespace := DBNamespace c;
     DBCluster := DBCluster c; Labels := Labels c; Version := Version c;
     Instances := Instances c; ServerId := ServerId c; Secret := Secret c;
     StartTime := v; Status := Status c;
     OnlineInstances := OnlineInstances c; Topology := Topology c;
     Engine := Engine c; Storage := Storage c |}.

Definition set_Status (v : string) (c : DBClusterInfo) : DBClusterInfo :=
  {| RootUser := RootUser c; DBPort := DBPort c; DBNamespace := DBNamespace c;
     DBCluster := DBCluster c; Labels := Labels c; Version := Version c;
     Instances := Instances c; ServerId := ServerId c; Secret := Secret c;
     StartTime := StartTime c; Status := v;
     OnlineInstances := OnlineInstances c; Topology := Topology c;
     Engine := Engine c; Storage := Storage c |}.

Definition set_OnlineInstances (v : Z) (c : DBClusterInfo) : DBClusterInfo :=
  {| RootUser := RootUser c; DBPort := DBPort c; DBNamespace := DBNamespace c;
     DBCluster := DBCluster c; Labels := Labels c; Version := Version c;
     Instances := Instances c; ServerId := ServerId c; Secret := Secret c;
     StartTime := StartTime c; Status := Status c;
     OnlineInstances := v; Topology := Topology c;
     Engine := Engine c; Storage := Storage c |}.

Definition set_Topology (v : string) (c : DBClusterInfo) : DBClusterInfo :=
  {| RootUser := RootUser c; DBPort := DBPort c; DBNamespace := DBNamespace c;
     DBCluster := DBCluster c; Labels := Labels c; Version := Version c;
     Instances := Instances c; ServerId := ServerId c; Secret := Secret c;
     StartTime := StartTime c; Status := Status c;
     OnlineInstances := OnlineInstances c; Topology := v;
     Engine := Engine c; Storage := Storage c |}.

Definition set_Engine (v : string) (c : DBClusterInfo) : DBClusterInfo :=
  {| RootUser := RootUser c; DBPort := DBPort c; DBNamespace := DBNamespace c;
     DBCluster := DBCluster c; Labels := Labels c; Version := Version c;
     Instances := Instances c; ServerId := ServerId c; Secret := Secret c;
     StartTime := StartTime c; Status := Status c;
     OnlineInstances := OnlineInstances c; Topology := Topology c;
     Engine := v; Storage := Storage c |}.

Definition set_Storage (v : Z) (c : DBClusterInfo) : DBClusterInfo :=
  {| RootUser := RootUser c; DBPort := DBPort c; DBNamespace := DBNamespace c;
     DBCluster := DBCluster c; Labels := Labels c; Version := Version c;
     Instances := Instances c; ServerId := ServerId c; Secret := Secret c;
     StartTime := StartTime c; Status := Status c;
     OnlineInstances := OnlineInstances c; Topology := Topology c;
     Engine := Engine c; Storage := v |}.

(** ** Statements over [*utils.DBClusterInfo]

    [buildClusterInfo] writes through the pointer [info] and has no result: a
    statement either completes or panics, and the writes made before a panic
    stay in the pointee. *)
Module Stmt.

Inductive outcome (A : Type) : Type :=
| Done (a : A)
| Panics (e : TypeAssertionError).
Arguments Done {A} a.
Arguments Panics {A} e.

Definition t (A : Type) : Type := DBClusterInfo -> DBClusterInfo * outcome A.

Definition ret {A : Type} (a : A) : t A := fun c => (c, Done a).

Definition bind {A B : Type} (m : t A) (k : A -> t B) : t B :=
  fun c =>
    match m c with
    | (c', Done a) => k a c'
    | (c', Panics e) => (c', Panics e)
    end.

(** A write [info.F = v]. *)
Definition store (f : DBClusterInfo -> DBClusterInfo) : t unit :=
  fun c => (f c, Done tt).

(** A read [info.F]. *)
Definition load {A : Type} (f : DBClusterInfo -> A) : t A :=
  fun c => (c, Done (f c)).

Definition fail {A : Type} (e : TypeAssertionError) : t A :=
  fun c => (c, Panics e).

End Stmt.

Notation "x <- m ;; k" := (Stmt.bind m (fun x => k))
  (at level 100, m at next level, right associativity).
Notation "m ;;; k" := (Stmt.bind m (fun _ => k))
  (at level 100, right associativity).

(** The type assertions [x.(T)] of the projection. *)
Definition assert_map (x : value) : Stmt.t (gmap string value) :=
  match x with
  | VMap m => Stmt.ret m
  | _ => Stmt.fail {| concrete := dyn_type x; asserted := TMap |}
  end.

Definition assert_string (x : value) : Stmt.t string :=
  match x with
  | VString s => Stmt.ret s
  | _ => Stmt.fail {| concrete := dyn_type x; asserted := TString |}
  end.

Definition assert_int64 (x : value) : Stmt.t Z :=
  match x with
  | VInt64 n => Stmt.ret n
  | _ => Stmt.fail {| concrete := dyn_type x; asserted := TInt64 |}
  end.

(** [fmt.Sprintf("%s:%s ", k, v)]. *)
Definition Sprintf_label (kv : string * string) : string :=
  fst kv ++ ":" ++ snd kv ++ " ".

(** The body of [for k, v := range ...], over the pairs in the order in which
    the run time yields them. *)
Fixpoint range_labels (kvs : list (string * string)) : Stmt.t unit :=
  match kvs with
  | [] => Stmt.ret tt
  | kv :: rest =>
      labels <- Stmt.load Labels ;;
      Stmt.store (set_Labels (labels ++ Sprintf_label kv)) ;;;
      range_labels rest
  end.

(** ** The collaborators

    The client-go and cli-runtime types that [describe.go] uses, reduced to
    what it reads from them. *)
Module schema.
Record GroupVersionResource : Type :=
  { Group : string; Version : string; Resource : string }.
End schema.

Module meta.
Record RESTMapping : Type := { Resource : schema.GroupVersionResource }.
End meta.

Module rest.
Record Config : Type := { Host : string }.
End rest.

Module describe.
Record ResourceDescriber : Type := { handle : nat }.
Record DescriberSettings : Type := { ShowEvents : bool; ChunkSize : Z }.
End describe.

Module dynamic.
(** [client.Resource(gvr).Namespace(ns).Get(ctx, name, opts)]. *)
Definition Interface : Type :=
  schema.GroupVersionResource -> string -> string -> Unstructured + error.
End dynamic.

Module resource.
Record FilenameOptions : Type :=
  { Filenames : list string; Kustomize : string; Recursive : bool }.

Record Info : Type :=
  { Namespace : string; Name : string; Mapping : meta.RESTMapping }.

Definition ResourceMapping (i : Info) : meta.RESTMapping := Mapping i.

(** What [Run] asks of the builder before [Do()]. *)
Record Builder : Type := {
  Unstructured_ : bool;
  ContinueOnError : bool;
  NamespaceParam : string;
  DefaultNamespace : bool;
  AllNamespaces : bool;
  FilenameParam : bool * FilenameOptions;
  ResourceTypeOrNameArgs : bool * list string;
  RequestChunksOf : Z;
  Flatten : bool
}.

(** A [resource.Result], observed through [Err()] and [Infos()]. *)
Record Result : Type :=
  { Err : option error; Infos : list Info * option error }.
End resource.

(** A [cmdutil.Factory], observed through the calls of [Complete]. *)
Record Factory : Type := {
  ToRawKubeConfigLoader_Namespace : string * bool * option error;
  ToRESTConfig : rest.Config + error;
  Factory_NewBuilder : resource.Builder -> resource.Result;
  DescriberFn : meta.RESTMapping -> describe.ResourceDescriber + error
}.

Record DescribeOptions : Type := {
  Namespace : string;
  Describer : option (meta.RESTMapping -> describe.ResourceDescriber + error);
  NewBuilder : option (resource.Builder -> resource.Result);
  BuilderArgs : list string;
  EnforceNamespace : bool;
  AllNamespaces : bool;
  DescriberSettings : describe.DescriberSettings;
  FilenameOptions : resource.FilenameOptions;
  client : option dynamic.Interface
}.

Definition set_Namespace (v : string) (o : DescribeOptions) : DescribeOptions :=
  {| Namespace := v; Describer := Describer o; NewBuilder := NewBuilder o;
     BuilderArgs := BuilderArgs o; EnforceNamespace := EnforceNamespace o;
     AllNamespaces := AllNamespaces o; DescriberSettings := DescriberSettings o;
     FilenameOptions := FilenameOptions o; client := client o |}.

Definition set_Describer
    (v : option (meta.RESTMapping -> describe.ResourceDescriber + error))
    (o : DescribeOptions) : DescribeOptions :=
  {| Namespace := Namespace o; Describer := v; NewBuilder := NewBuilder o;
     BuilderArgs := BuilderArgs o; EnforceNamespace := EnforceNamespace o;
     AllNamespaces := AllNamespaces o; DescriberSettings := DescriberSettings o;
     FilenameOptions := FilenameOptions o; client := client o |}.

Definition set_NewBuilder (v : option (resource.Builder -> resource.Result))
    (o : DescribeOptions) : DescribeOptions :=
  {| Namespace := Namespace o; Describer := Describer o; NewBuilder := v;
     BuilderArgs := BuilderArgs o; EnforceNamespace := EnforceNamespace o;
     AllNamespaces := AllNamespaces o; DescriberSettings := DescriberSettings o;
     FilenameOptions := FilenameOptions o; client := client o |}.

Definition set_BuilderArgs (v : list string) (o : DescribeOptions) : DescribeOptions :=
  {| Namespace := Namespace o; Describer := Describer o; NewBuilder := NewBuilder o;
     BuilderArgs := v; EnforceNamespace := EnforceNamespace o;
     AllNamespaces := AllNamespaces o; DescriberSettings := DescriberSettings o;
     FilenameOptions := FilenameOptions o; client := client o |}.

Definition set_EnforceNamespace (v : bool) (o : DescribeOptions) : DescribeOptions :=
  {| Namespace := Namespace o; Describer := Describer o; NewBuilder := NewBuilder o;
     BuilderArgs := BuilderArgs o; EnforceNamespace := v;
     AllNamespaces := AllNamespaces o; DescriberSettings := DescriberSettings o;
     FilenameOptions := FilenameOptions o; client := client o |}.

Definition set_client (v : option dynamic.Interface) (o : DescribeOptions) : DescribeOptions :=
  {| Namespace := Namespace o; Describer := Describer o; NewBuilder := NewBuilder o;
     BuilderArgs := BuilderArgs o; EnforceNamespace := EnforceNamespace o;
     AllNamespaces := AllNamespaces o; DescriberSettings := DescriberSettings o;
     FilenameOptions := FilenameOptions o; client := v |}.

(** What the command does to the outside world, in order. *)
Inductive event : Type :=
| CallNamespace                               (* f.ToRawKubeConfigLoader().Namespace() *)
| CallToRESTConfig                            (* f.ToRESTConfig() *)
| CallNewForConfig (config : rest.Config)     (* dynamic.NewForConfig(config) *)
| CallDo (b : resource.Builder)               (* o.NewBuilder()...Do() *)
| CallGet (gvr : schema.GroupVersionResource) (namespace name : string)
| PrintClusterInfo (info : DBClusterInfo)     (* utils.PrintClusterInfo *)
| ErrOut (line : string).                     (* fmt.Fprint* on o.ErrOut *)

(** How a call of [Run] ends. *)
Inductive result : Type :=
| Returns (err : option error)
| Panicked (p : panic).

Definition newline : string := String (Ascii.ascii_of_nat 10) EmptyString.

(** ** The projection as the specification words it

    The required extractions by path and expected type, listed in the order
    in which [buildClusterInfo] asserts them. *)
Fixpoint lookup_path (path : list string) (v : value) : value :=
  match path with
  | [] => v
  | k :: rest =>
      match v with
      | VMap m => lookup_path rest (index m k)
      | _ => VNil
      end
  end.

(** The value that a document holds at a path; nil when the path is absent. *)
Definition field (obj : Unstructured) (path : list string) : value :=
  lookup_path path (VMap (Object obj)).

Definition required_fields : list (list string * gotype) :=
  [ (["status"], TMap);
    (["status"; "cluster"], TMap);
    (["spec"], TMap);
    (["spec"; "version"], TString);
    (["spec"; "instances"], TInt64);
    (["spec"; "baseServerId"], TInt64);
    (["spec"; "secretName"], TString);
    (["status"; "createTime"], TString);
    (["status"; "cluster"; "status"], TString);
    (["status"; "cluster"; "onlineInstances"], TInt64) ].

Definition well_typed (obj : Unstructured) (r : list string * gotype) : bool :=
  bool_decide (dyn_type (field obj (fst r)) = Some (snd r)).

(** The first required path that is absent or holds a value of another type. *)
Definition first_offending (obj : Unstructured) : option (list string * gotype) :=
  List.find (fun r => negb (well_typed obj r)) required_fields.

(** The concatenation of ["key:value "] over label pairs. *)
Fixpoint concat_labels (kvs : list (string * string)) : string :=
  match kvs with
  | [] => ""
  | kv :: rest => Sprintf_label kv ++ concat_labels rest
  end.

(** ** Sample documents and collaborators *)

Definition doc_of (spec status : gmap string value) (metadata : gmap string value)
  : Unstructured :=
  {| Object := {[ "spec" := VMap spec; "status" := VMap status;
                  "metadata" := VMap metadata ]} |}.

Definition sample_cluster : gmap string value :=
  {[ "status" := VString "Running"; "onlineInstances" := VInt64 1 ]}.

Definition sample_status : gmap string value :=
  {[ "createTime" := VString "t0"; "cluster" := VMap sample_cluster ]}.

Definition sample_spec (instances : Z) : gmap string value :=
  {[ "version" := VString "8.0.30"; "instances" := VInt64 instances;
     "baseServerId" := VInt64 1; "secretName" := VString "s1" ]}.

(** The scenario document of the specification, with labels. *)
Definition scenario_doc (instances : Z) (labels : gmap string value) : Unstructured :=
  doc_of (sample_spec instances) sample_status {[ "labels" := VMap labels ]}.

Definition doc_without_version : Unstructured :=
  doc_of (delete "version" (sample_spec 1)) sample_status ∅.

Definition doc_without_secretName : Unstructured :=
  doc_of (delete "secretName" (sample_spec 1)) sample_status ∅.

Definition sample_gvr : schema.GroupVersionResource :=
  {| schema.Group := "dbaas.infracreate.com"; schema.Version := "v1alpha1";
     schema.Resource := "databaseclusters" |}.

Definition sample_info (namespace name : string) : resource.Info :=
  {| resource.Namespace := namespace; resource.Name := name;
     resource.Mapping := {| meta.Resource := sample_gvr |} |}.

(** A client that has no object named ["gone"], answers ["labelled"] with the
    scenario document labelled [env=prod], and any other name with the
    scenario document without labels. *)
Definition sample_client : dynamic.Interface :=
  fun _ _ name =>
    if String.eqb name "gone" then inr (errorString "databaseclusters gone not found")
    else if String.eqb name "labelled"
         then inl (scenario_doc 1 {[ "env" := VString "prod" ]})
         else inl (scenario_doc 1 ∅).

Definition sample_builder (infos : list resource.Info)
  : resource.Builder -> resource.Result :=
  fun _ => {| resource.Err := None; resource.Infos := (infos, None) |}.

Definition sample_options (allNamespaces : bool) (infos : list resource.Info)
  : DescribeOptions :=
  {| Namespace := "default"; Describer := None;
     NewBuilder := Some (sample_builder infos);
     BuilderArgs := ["databaseclusters"; "mycluster"];
     EnforceNamespace := false; AllNamespaces := allNamespaces;
     DescriberSettings := {| describe.ShowEvents := true; describe.ChunkSize := 0 |};
     FilenameOptions := {| resource.Filenames := []; resource.Kustomize := "";
                           resource.Recursive := false |};
     client := Some sample_client |}.

(** The options as [NewDescribeCmd] builds them. *)
Definition fresh_options : DescribeOptions :=
  {| Namespace := ""; Describer := None; NewBuilder := None; BuilderArgs := [];
     EnforceNamespace := false; AllNamespaces := false;
     DescriberSettings := {| describe.ShowEvents := true; describe.ChunkSize := 0 |};
     FilenameOptions := {| resource.Filenames := []; resource.Kustomize := "";
                           resource.Recursive := false |};
     client := None |}.

(** A factory whose REST configuration cannot be loaded. *)
Definition factory_without_config : Factory :=
  {| ToRawKubeConfigLoader_Namespace := ("default", false, None);
     ToRESTConfig := inr (errorString "invalid configuration");
     Factory_NewBuilder := sample_builder [];
     DescriberFn := fun _ => inl {| describe.handle := 0 |} |}.

Definition sample_NewForConfig (config : rest.Config)
  : dynamic.Interface + error := inl sample_client.

(** Sample values for the constants of the playground package and for the
    order of [range]. *)
Definition sample_rootUser : string := "root".
Definition sample_port : string := "3306".
Definition sample_engine : string := "wesql".
Definition sample_sourceName : string := "databaseclusters".
Definition sample_order : gmap string string -> list (string * string) :=
  map_to_list.

(** A batch of three whose second identity cannot be fetched. *)
Definition sample_batch : list resource.Info :=
  [ sample_info "default" "mycluster"; sample_info "default" "gone";
    sample_info "default" "other" ].

(** A factory whose kubeconfig names no namespace. *)
Definition factory_without_namespace : Factory :=
  {| ToRawKubeConfigLoader_Namespace :=
       ("", false, Some (errorString "invalid configuration: no context"));
     ToRESTConfig := inl {| rest.Host := "https://localhost:6443" |};
     Factory_NewBuilder := sample_builder [];
     DescriberFn := fun _ => inl {| describe.handle := 0 |} |}.

(** A factory in working order that locates [infos] in the namespace [ns]. *)
Definition sample_factory (ns : string) (enforce : bool)
    (infos : list resource.Info) : Factory :=
  {| ToRawKubeConfigLoader_Namespace := (ns, enforce, None);
     ToRESTConfig := inl {| rest.Host := "https://localhost:6443" |};
     Factory_NewBuilder := sample_builder infos;
     DescriberFn := fun _ => inl {| describe.handle := 0 |} |}.

Definition failing_NewForConfig (config : rest.Config)
  : dynamic.Interface + error := inr (errorString "host must be a URL").

(** A client as [sample_client], but for the name ["broken"], which it
    answers with a document that lacks [spec.version]. *)
Definition sample_client_broken : dynamic.Interface :=
  fun gvr ns name =>
    if String.eqb name "broken" then inl doc_without_version
    else sample_client gvr ns name.

Definition sample_NewForConfig_broken (config : rest.Config)
  : dynamic.Interface + error := inl sample_client_broken.


Definition sample_options_with (c : option dynamic.Interface)
    (newBuilder : option (resource.Builder -> resource.Result)) : DescribeOptions :=
  set_NewBuilder newBuilder (set_client c (sample_options false [])).

(** A builder whose enumeration reports an error beside what it located. *)
Definition partial_builder (infos : list resource.Info) (e : error)
  : resource.Builder -> resource.Result :=
  fun _ => {| resource.Err := None; resource.Infos := (infos, Some e) |}.

Definition failing_builder (e : error) : resource.Builder -> resource.Result :=
  fun _ => {| resource.Err := Some e; resource.Infos := ([], Some e) |}.

(** An order of [range] other than [sample_order]. *)
Definition sample_order_rev : gmap string string -> list (string * string) :=
  fun m => reverse (map_to_list m).

Definition two_labels : gmap string value :=
  {[ "a" := VString "1"; "b" := VString "2" ]}.

(** The scenario document with two labels, and the same with fields that
    the projection does not read. *)
Definition doc_two_labels : Unstructured := scenario_doc 1 two_labels.

Definition doc_two_labels_extras : Unstructured :=
  {| Object := <[ "kind" := VString "DatabaseCluster" ]>
                 (<[ "spec" := VMap (<[ "replicas" := VInt64 5 ]> (sample_spec 1)) ]>
                    (Object doc_two_labels)) |}.

(** The error of an enumeration that failed on two identities with the same
    message. *)
Definition duplicate_errors : error :=
  aggregate [ errorString "no matches for kind DatabaseCluster";
              errorString "no matches for kind DatabaseCluster" ].

Section Describe.

(** The constants of [pkg/cmd/playground] and [pkg/types]. *)
Variable DefaultRootUser : string.
Variable DefaultPort : string.
Variable DefaultEngine : string.
Variable PlaygroundSourceName : string.

(** The order in which [range] visits a label map: Go leaves it
    unspecified, so it is a parameter. *)
Variable range_order : gmap string string -> list (string * string).

Definition buildClusterInfo (obj : Unstructured) : Stmt.t unit :=
  range_labels (range_order (GetLabels obj)) ;;;
  status <- assert_map (index (Object obj) "status") ;;
  cluster <- assert_map (index status "cluster") ;;
  spec <- assert_map (index (Object obj) "spec") ;;
  version <- assert_string (index spec "version") ;;
  Stmt.store (set_Version version) ;;;
  instances <- assert_int64 (index spec "instances") ;;
  Stmt.store (set_Instances instances) ;;;
  baseServerId <- assert_int64 (index spec "baseServerId") ;;
  Stmt.store (set_ServerId baseServerId) ;;;
  secretName <- assert_string (index spec "secretName") ;;
  Stmt.store (set_Secret secretName) ;;;
  createTime <- assert_string (index status "createTime") ;;
  Stmt.store (set_StartTime createTime) ;;;
  st <- assert_string (index cluster "status") ;;
  Stmt.store (set_Status st) ;;;
  onlineInstances <- assert_int64 (index cluster "onlineInstances") ;;
  Stmt.store (set_OnlineInstances onlineInstances) ;;;
  Stmt.store (set_Topology "Cluster") ;;;
  n <- Stmt.load Instances ;;
  (if bool_decide (n = 1)
   then Stmt.store (set_Topology "Standalone")
   else Stmt.ret tt) ;;;
  Stmt.store (set_Engine DefaultEngine) ;;;
  Stmt.store (set_Storage 2).

(** *** Complete *)

(** [dynamic.NewForConfig]. *)
Variable NewForConfig : rest.Config -> dynamic.Interface + error.

Definition Complete (f : Factory) (args : list string) (o : DescribeOptions)
  : DescribeOptions * list event * option error :=
  if (length args =? 0)%nat then
    (o, [], Some (errorString "You must specify the database cluster name to describe."))
  else
    let '(ns, enforce, err) := ToRawKubeConfigLoader_Namespace f in
    let o := set_EnforceNamespace enforce (set_Namespace ns o) in
    match err with
    | Some e => (o, [CallNamespace], Some e)
    | None =>
        let o := if AllNamespaces o then set_EnforceNamespace false o else o in
        let o := set_BuilderArgs (PlaygroundSourceName :: args) o in
        let o := set_Describer (Some (DescriberFn f)) o in
        match ToRESTConfig f with
        | inr _ => (o, [CallNamespace; CallToRESTConfig], None)
        | inl config =>
            match NewForConfig config with
            | inr e =>
                (o, [CallNamespace; CallToRESTConfig; CallNewForConfig config], Some e)
            | inl c =>
                let o := set_client (Some c) o in
                let o := set_NewBuilder (Some (Factory_NewBuilder f)) o in
                (o, [CallNamespace; CallToRESTConfig; CallNewForConfig config], None)
            end
        end
    end.

(** *** Run *)

(** The variables of [Run] that the loop updates, and the output so far. *)
Record loop_state : Type := {
  allErrs : list error;
  errs : gset string;
  out : list event
}.

Definition emit (e : event) (s : loop_state) : loop_state :=
  {| allErrs := allErrs s; errs := errs s; out := out s ++ [e] |}.

Definition record_error (e : error) (s : loop_state) : loop_state :=
  {| allErrs := allErrs s ++ [e]; errs := {[Error e]} ∪ errs s; out := out s |}.

(** The struct literal at the head of the loop body; the fields it does not
    name are zero. *)
Definition new_clusterInfo : DBClusterInfo :=
  {| RootUser := DefaultRootUser; DBPort := DefaultPort;
     DBNamespace := ""; DBCluster := ""; Labels := ""; Version := "";
     Instances := 0; ServerId := 0; Secret := ""; StartTime := "";
     Status := ""; OnlineInstances := 0; Topology := ""; Engine := "";
     Storage := 0 |}.

(** [for _, info := range infos { ... }].  [err] is the variable of [Run]
    that the test at the head of the body reads: the [err] that the body
    declares with [obj, err := ...] is a new variable of the body's own
    scope, so the loop never assigns the outer one.  The second component
    is [Some] when the body left [Run] (by [return] or by a panic). *)
Fixpoint Run_loop (o : DescribeOptions) (err : option error)
    (infos : list resource.Info) (s : loop_state) : loop_state * option result :=
  match infos with
  | [] => (s, None)
  | info :: rest =>
      let clusterInfo := new_clusterInfo in
      let mapping := resource.ResourceMapping info in
      match err with
      | Some e =>
          if bool_decide (Error e ∈ errs s) then Run_loop o err rest s
          else Run_loop o err rest (record_error e s)
      | None =>
          let clusterInfo := set_DBNamespace (resource.Namespace info) clusterInfo in
          let clusterInfo := set_DBCluster (resource.Name info) clusterInfo in
          match client o with
          | None => (s, Some (Panicked PanicNilDereference))
          | Some c =>
              let s := emit (CallGet (meta.Resource mapping) (Namespace o)
                                     (resource.Name info)) s in
              match c (meta.Resource mapping) (Namespace o) (resource.Name info) with
              | inr e => (s, Some (Returns (Some e)))
              | inl obj =>
                  match buildClusterInfo obj clusterInfo with
                  | (_, Stmt.Panics e) => (s, Some (Panicked (PanicTypeAssertion e)))
                  | (clusterInfo, Stmt.Done _) =>
                      Run_loop o err rest (emit (PrintClusterInfo clusterInfo) s)
                  end
              end
          end
      end
  end.

(** The builder chain of [Run], up to [Do()]. *)
Definition Run_builder (o : DescribeOptions) : resource.Builder :=
  {| resource.Unstructured_ := true;
     resource.ContinueOnError := true;
     resource.NamespaceParam := Namespace o;
     resource.DefaultNamespace := true;
     resource.AllNamespaces := AllNamespaces o;
     resource.FilenameParam := (EnforceNamespace o, FilenameOptions o);
     resource.ResourceTypeOrNameArgs := (true, BuilderArgs o);
     resource.RequestChunksOf := describe.ChunkSize (DescriberSettings o);
     resource.Flatten := true |}.

Definition Run (o : DescribeOptions) : list event * result :=
  match NewBuilder o with
  | None => ([], Panicked PanicNilDereference)
  | Some newBuilder =>
      let r := newBuilder (Run_builder o) in
      let out0 := [CallDo (Run_builder o)] in
      match resource.Err r with
      | Some e => (out0, Returns (Some e))
      | None =>
          let allErrs0 : list error := [] in
          let '(infos, err) := resource.Infos r in
          match err with
          | Some e => (out0, Returns (Some e))
          | None =>
              let s0 := {| allErrs := allErrs0; errs := ∅; out := out0 |} in
              match Run_loop o err infos s0 with
              | (s, Some res) => (out s, res)
              | (s, None) =>
                  let s :=
                    if ((length infos =? 0)%nat && (length (allErrs s) =? 0)%nat)%bool
                    then
                      if AllNamespaces o
                      then emit (ErrOut ("No resources found" ++ newline)) s
                      else emit (ErrOut ("No resources found in " ++ Namespace o
                                         ++ " namespace." ++ newline)) s
                    else s in
                  (out s, Returns (NewAggregate (allErrs s)))
              end
          end
      end
  end.

(** What a completed projection leaves in the record. *)
Definition projected (obj : Unstructured) (c : DBClusterInfo)
    (version : string) (instances baseServerId : Z) (secretName createTime
     status : string) (onlineInstances : Z) : DBClusterInfo :=
  {| RootUser := RootUser c; DBPort := DBPort c;
     DBNamespace := DBNamespace c; DBCluster := DBCluster c;
     Labels := Labels c ++ concat_labels (range_order (GetLabels obj));
     Version := version; Instances := instances; ServerId := baseServerId;
     Secret := secretName; StartTime := createTime; Status := status;
     OnlineInstances := onlineInstances;
     Topology := if bool_decide (instances = 1) then "Standalone" else "Cluster";
     Engine := DefaultEngine; Storage := 2 |}.

(** The line that [Run] writes to [ErrOut] when it located nothing. *)
Definition no_resources_found (o : DescribeOptions) : string :=
  if AllNamespaces o then "No resources found" ++ newline
  else "No resources found in " ++ Namespace o ++ " namespace." ++ newline.

(** The two lists of [Run] agree and hold no message twice. *)
Definition errors_deduplicated (s : loop_state) : Prop :=
  NoDup (map Error (allErrs s)) /\
  forall msg, msg ∈ errs s <-> msg ∈ map Error (allErrs s).

(** *** One iteration of the loop, named piecewise *)

(** [clusterInfo] as it stands when [buildClusterInfo] is called. *)
Definition init_clusterInfo (info : resource.Info) : DBClusterInfo :=
  set_DBCluster (resource.Name info)
    (set_DBNamespace (resource.Namespace info) new_clusterInfo).

(** The [Get] that the loop body issues for [info]. *)
Definition fetch (o : DescribeOptions) (c : dynamic.Interface)
    (info : resource.Info) : Unstructured + error :=
  c (meta.Resource (resource.ResourceMapping info)) (Namespace o)
    (resource.Name info).

Definition fetch_event (o : DescribeOptions) (info : resource.Info) : event :=
  CallGet (meta.Resource (resource.ResourceMapping info)) (Namespace o)
    (resource.Name info).

(** The record that the body prints for [info] when the fetch and the
    projection both complete. *)
Definition summary (o : DescribeOptions) (c : dynamic.Interface)
    (info : resource.Info) : DBClusterInfo :=
  match fetch o c info with
  | inl obj => fst (buildClusterInfo obj (init_clusterInfo info))
  | inr _ => init_clusterInfo info
  end.




(** *** The events and the ends of the loop *)

(** What an event of the loop can be: the [Get] of an identity of the batch
    in the namespace of the options, or the summary of an identity whose
    document was fetched and projected. *)
Definition loop_event (o : DescribeOptions) (infos : list resource.Info)
    (e : event) : Prop :=
  match e with
  | CallGet _ _ _ => exists i, In i infos /\ e = fetch_event o i
  | PrintClusterInfo ci =>
      exists c i obj,
        client o = Some c /\ In i infos /\ fetch o c i = inl obj /\
        buildClusterInfo obj (init_clusterInfo i) = (ci, Stmt.Done tt)
  | _ => False
  end.

(** How the loop can leave [Run]: with the error of a fetch, or in a panic. *)
Definition loop_result (o : DescribeOptions) (infos : list resource.Info)
    (r : option result) : Prop :=
  match r with
  | None => True
  | Some (Returns None) => False
  | Some (Returns (Some e)) =>
      exists c i, client o = Some c /\ In i infos /\ fetch o c i = inr e
  | Some (Panicked PanicNilDereference) => client o = None /\ infos <> []
  | Some (Panicked (PanicTypeAssertion e)) =>
      exists c i obj ci,
        client o = Some c /\ In i infos /\ fetch o c i = inl obj /\
        buildClusterInfo obj (init_clusterInfo i) = (ci, Stmt.Panics e)
  end.

(** *** The command

    The [Run] function of the command that [NewDescribeCmd] builds:
    [cmdutil.CheckErr(o.Complete(f, args))], then [cmdutil.CheckErr(o.Run())],
    on the options [fresh_options].  [CheckErr] returns on a nil error and
    ends the process on any other. *)
Inductive exit : Type :=
| Completed
| Fatal (err : error)
| Crashed (p : panic).

Definition NewDescribeCmd_Run (f : Factory) (args : list string)
  : list event * exit :=
  match Complete f args fresh_options with
  | (_, calls, Some e) => (calls, Fatal e)
  | (o, calls, None) =>
      match Run o with
      | (out, Returns (Some e)) => ((calls ++ out)%list, Fatal e)
      | (out, Returns None) => ((calls ++ out)%list, Completed)
      | (out, Panicked p) => ((calls ++ out)%list, Crashed p)
      end
  end.

Definition is_ErrOut (e : event) : bool :=
  match e with ErrOut _ => true | _ => false end.

(** The names under which the printed summaries go, in order. *)
Fixpoint printed (out : list event) : list (string * string) :=
  match out with
  | [] => []
  | PrintClusterInfo ci :: rest => (DBNamespace ci, DBCluster ci) :: printed rest
  | _ :: rest => printed rest
  end.

(** *** Properties of the projection *)

Lemma append_cons (a : Ascii.ascii) (s t : string) :
  String a s ++ t = String a (s ++ t).
Proof. reflexivity. Qed.

Lemma append_nil_r (s : string) : s ++ "" = s.
Proof.
  induction s as [|a s IH]; [reflexivity|].
  rewrite append_cons, IH. reflexivity.
Qed.

Lemma append_assoc (s t u : string) : (s ++ t) ++ u = s ++ (t ++ u).
Proof.
  induction s as [|a s IH]; [reflexivity|].
  rewrite !append_cons, IH. reflexivity.
Qed.

Lemma set_Labels_id (c : DBClusterInfo) : set_Labels (Labels c) c = c.
Proof. destruct c; reflexivity. Qed.

(** The label loop never panics and only appends to [Labels]. *)
Lemma range_labels_appends (kvs : list (string * string)) (c : DBClusterInfo) :
  range_labels kvs c
  = (set_Labels (Labels c ++ concat_labels kvs) c, Stmt.Done tt).
Proof.
  revert c. induction kvs as [|kv kvs IH]; intros c.
  - cbn [range_labels concat_labels]. unfold Stmt.ret.
    rewrite append_nil_r, set_Labels_id. reflexivity.
  - cbn [range_labels concat_labels].
    unfold Stmt.bind at 1. unfold Stmt.load.
    unfold Stmt.bind at 1. unfold Stmt.store.
    rewrite IH. destruct c; cbn. rewrite append_assoc. reflexivity.
Qed.

Lemma buildClusterInfo_done (obj : Unstructured) (c : DBClusterInfo)
    (version : string) (instances baseServerId : Z)
    (secretName createTime status : string) (onlineInstances : Z) :
  field obj ["spec"; "version"] = VString version ->
  field obj ["spec"; "instances"] = VInt64 instances ->
  field obj ["spec"; "baseServerId"] = VInt64 baseServerId ->
  field obj ["spec"; "secretName"] = VString secretName ->
  field obj ["status"; "createTime"] = VString createTime ->
  field obj ["status"; "cluster"; "status"] = VString status ->
  field obj ["status"; "cluster"; "onlineInstances"] = VInt64 onlineInstances ->
  buildClusterInfo obj c
  = (projected obj c version instances baseServerId secretName createTime
       status onlineInstances, Stmt.Done tt).
Proof.
  unfold field. cbn [lookup_path].
  destruct (index (Object obj) "spec") as [| | | | |spec|] eqn:Hspec;
    try discriminate.
  destruct (index (Object obj) "status") as [| | | | |st|] eqn:Hstatus;
    try discriminate.
  destruct (index st "cluster") as [| | | | |cl|] eqn:Hcluster;
    try discriminate.
  intros Hv Hi Hb Hs Ht Hcs Ho.
  unfold buildClusterInfo, Stmt.bind.
  rewrite range_labels_appends, Hstatus. cbn [assert_map Stmt.ret].
  rewrite Hcluster. cbn [assert_map Stmt.ret].
  rewrite Hspec. cbn [assert_map Stmt.ret].
  rewrite Hv, Hi, Hb, Hs, Ht, Hcs, Ho.
  cbn [assert_string assert_int64 Stmt.ret Stmt.store Stmt.load].
  unfold projected. destruct c; cbn.
  destruct (bool_decide (instances = 1)); reflexivity.
Qed.

Ltac eval_checks H :=
  cbn [dyn_type] in H;
  repeat (first [ rewrite bool_decide_eq_true_2 in H by reflexivity
                | rewrite bool_decide_eq_false_2 in H by discriminate ];
          cbn [negb] in H).

Ltac stop_at H :=
  eval_checks H; injection H as <- <-;
  repeat (cbn [lookup_path assert_map assert_string assert_int64
               Stmt.ret Stmt.store Stmt.load Stmt.fail];
          match goal with
          | E : index ?m ?k = _ |- context [index ?m ?k] => rewrite E
          end);
  eexists; reflexivity.

Lemma buildClusterInfo_panics (obj : Unstructured) (c : DBClusterInfo)
    (path : list string) (T : gotype) :
  first_offending obj = Some (path, T) ->
  exists c',
    buildClusterInfo obj c
    = (c', Stmt.Panics {| concrete := dyn_type (field obj path); asserted := T |}).
Proof.
  unfold first_offending, required_fields, well_typed, field, buildClusterInfo,
    Stmt.bind.
  rewrite range_labels_appends.
  cbn [List.find lookup_path fst snd].
  destruct (index (Object obj) "status") as [| | | | |st|] eqn:Hstatus;
    intros H; try (stop_at H).
  destruct (index st "cluster") as [| | | | |cl|] eqn:Hcluster;
    try (stop_at H).
  destruct (index (Object obj) "spec") as [| | | | |spec|] eqn:Hspec;
    try (stop_at H).
  destruct (index spec "version") eqn:Hv; try (stop_at H).
  destruct (index spec "instances") eqn:Hi; try (stop_at H).
  destruct (index spec "baseServerId") eqn:Hb; try (stop_at H).
  destruct (index spec "secretName") eqn:Hs; try (stop_at H).
  destruct (index st "createTime") eqn:Ht; try (stop_at H).
  destruct (index cl "status") eqn:Hcs; try (stop_at H).
  destruct (index cl "onlineInstances") eqn:Ho; try (stop_at H).
  eval_checks H. discriminate H.
Qed.

Lemma first_offending_None (obj : Unstructured) :
  first_offending obj = None ->
  exists version instances baseServerId secretName createTime status
         onlineInstances,
    field obj ["spec"; "version"] = VString version /\
    field obj ["spec"; "instances"] = VInt64 instances /\
    field obj ["spec"; "baseServerId"] = VInt64 baseServerId /\
    field obj ["spec"; "secretName"] = VString secretName /\
    field obj ["status"; "createTime"] = VString createTime /\
    field obj ["status"; "cluster"; "status"] = VString status /\
    field obj ["status"; "cluster"; "onlineInstances"] = VInt64 onlineInstances.
Proof.
  unfold first_offending, required_fields, well_typed, field.
  cbn [List.find lookup_path fst snd].
  destruct (index (Object obj) "status") as [| | | | |st|] eqn:Hstatus;
    intros H; try (eval_checks H; discriminate H).
  destruct (index st "cluster") as [| | | | |cl|] eqn:Hcluster;
    try (eval_checks H; discriminate H).
  destruct (index (Object obj) "spec") as [| | | | |spec|] eqn:Hspec;
    try (eval_checks H; discriminate H).
  destruct (index spec "version") eqn:Hv; try (eval_checks H; discriminate H).
  destruct (index spec "instances") eqn:Hi; try (eval_checks H; discriminate H).
  destruct (index spec "baseServerId") eqn:Hb;
    try (eval_checks H; discriminate H).
  destruct (index spec "secretName") eqn:Hs; try (eval_checks H; discriminate H).
  destruct (index st "createTime") eqn:Ht; try (eval_checks H; discriminate H).
  destruct (index cl "status") eqn:Hcs; try (eval_checks H; discriminate H).
  destruct (index cl "onlineInstances") eqn:Ho;
    try (eval_checks H; discriminate H).
  repeat eexists.
Qed.

(** The projection completes exactly on the documents with no offending
    path. *)
Lemma buildClusterInfo_completes_iff (obj : Unstructured) (c : DBClusterInfo) :
  snd (buildClusterInfo obj c) = Stmt.Done tt <-> first_offending obj = None.
Proof.
  split.
  - destruct (first_offending obj) as [[path T]|] eqn:Hoff; [|reflexivity].
    destruct (buildClusterInfo_panics obj c path T Hoff) as [c' ->].
    discriminate.
  - intros Hnone.
    destruct (first_offending_None obj Hnone)
      as (v & i & b & sn & t & cs & oi & Hv & Hi & Hb & Hs & Ht & Hcs & Ho).
    rewrite (buildClusterInfo_done obj c v i b sn t cs oi); auto.
Qed.

(** *** Properties of the loop *)



(** A projection that panics leaves [Run] at once, nothing printed. *)
Lemma Run_loop_projection_panics (o : DescribeOptions) (c : dynamic.Interface)
    (info : resource.Info) (rest : list resource.Info) (s : loop_state)
    (obj : Unstructured) (ci : DBClusterInfo) (e : TypeAssertionError) :
  client o = Some c ->
  fetch o c info = inl obj ->
  buildClusterInfo obj (init_clusterInfo info) = (ci, Stmt.Panics e) ->
  Run_loop o None (info :: rest) s
  = (emit (fetch_event o info) s, Some (Panicked (PanicTypeAssertion e))).
Proof.
  unfold fetch, init_clusterInfo. intros Hc Hf Hb. cbn [Run_loop].
  rewrite Hc, Hf, Hb. reflexivity.
Qed.



Lemma Run_loop_None_records_nothing (o : DescribeOptions)
    (infos : list resource.Info) (s s' : loop_state) (r : option result) :
  Run_loop o None infos s = (s', r) ->
  allErrs s' = allErrs s /\ errs s' = errs s.
Proof.
  revert s. induction infos as [|info infos IH]; intros s; cbn [Run_loop].
  - intros [= <- <-]. auto.
  - destruct (client o) as [c|]; [|intros [= <- <-]; auto].
    destruct (c _ _ _) as [obj|e]; [|intros [= <- <-]; auto].
    destruct (buildClusterInfo obj _) as [ci [[]|e]];
      [|intros [= <- <-]; auto].
    intros H. apply IH in H. exact H.
Qed.

(** With a pending error the loop fetches nothing: it records the error at
    the first identity unless its message is already in [errs], and skips
    every later identity. *)
Lemma Run_loop_pending_error (o : DescribeOptions) (e : error)
    (infos : list resource.Info) (s : loop_state) :
  Run_loop o (Some e) infos s
  = (match infos with
     | [] => s
     | _ :: _ => if bool_decide (Error e ∈ errs s) then s else record_error e s
     end, None).
Proof.
  revert s. induction infos as [|info infos IH]; intros s; [reflexivity|].
  cbn [Run_loop]. rewrite !IH.
  destruct (bool_decide (Error e ∈ errs s)) eqn:Hin.
  - destruct infos; reflexivity.
  - destruct infos; [reflexivity|].
    rewrite bool_decide_eq_true_2; [reflexivity|].
    cbn [record_error errs]. set_solver.
Qed.

Lemma record_error_deduplicated (e : error) (s : loop_state) :
  Error e ∉ errs s ->
  errors_deduplicated s -> errors_deduplicated (record_error e s).
Proof.
  intros Hnew [Hnd Hagree]. split; cbn [record_error allErrs errs].
  - rewrite map_app. cbn [map]. apply NoDup_app. split; [exact Hnd|]. split.
    + intros msg Hin ->%list_elem_of_singleton. apply Hnew, Hagree, Hin.
    + apply NoDup_singleton.
  - intros msg. rewrite map_app. cbn [map].
    rewrite elem_of_union, elem_of_singleton, elem_of_app, list_elem_of_singleton.
    rewrite Hagree. tauto.
Qed.

(** Whatever the loop meets, it keeps [allErrs] free of repeated messages. *)
Lemma Run_loop_deduplicated (o : DescribeOptions) (err : option error)
    (infos : list resource.Info) (s s' : loop_state) (r : option result) :
  errors_deduplicated s ->
  Run_loop o err infos s = (s', r) ->
  errors_deduplicated s'.
Proof.
  intros Hs Hrun. destruct err as [e|].
  - rewrite Run_loop_pending_error in Hrun. injection Hrun as <- <-.
    destruct infos; [exact Hs|]. case_bool_decide; [exact Hs|].
    apply record_error_deduplicated; assumption.
  - apply Run_loop_None_records_nothing in Hrun as [Ha He].
    unfold errors_deduplicated in *. rewrite Ha, He. exact Hs.
Qed.



(** *** The claims of the specification *)

(** C1.  On a document that holds the seven required fields with their
    expected types (which makes [spec], [status] and [status.cluster]
    maps), the projection completes without a panic, the record carries the
    extracted values, and [Topology] is ["Standalone"] exactly when
    [Instances] is 1 and ["Cluster"] otherwise. *)
Theorem buildClusterInfo_well_formed (obj : Unstructured) (c : DBClusterInfo)
    (version : string) (instances baseServerId : Z)
    (secretName createTime status : string) (onlineInstances : Z) :
  field obj ["spec"; "version"] = VString version ->
  field obj ["spec"; "instances"] = VInt64 instances ->
  field obj ["spec"; "baseServerId"] = VInt64 baseServerId ->
  field obj ["spec"; "secretName"] = VString secretName ->
  field obj ["status"; "createTime"] = VString createTime ->
  field obj ["status"; "cluster"; "status"] = VString status ->
  field obj ["status"; "cluster"; "onlineInstances"] = VInt64 onlineInstances ->
  exists c',
    buildClusterInfo obj c = (c', Stmt.Done tt) /\
    Version c' = version /\ Instances c' = instances /\
    ServerId c' = baseServerId /\ Secret c' = secretName /\
    StartTime c' = createTime /\ Status c' = status /\
    OnlineInstances c' = onlineInstances /\
    (Topology c' = "Standalone" <-> Instances c' = 1) /\
    (Topology c' = "Cluster" <-> Instances c' <> 1).
Proof.
  intros Hv Hi Hb Hs Ht Hcs Ho.
  eexists. split;
    [apply (buildClusterInfo_done obj c version instances baseServerId
              secretName createTime status onlineInstances); assumption|].
  cbn [projected Version Instances ServerId Secret StartTime Status
       OnlineInstances Topology].
  repeat (split; [reflexivity|]).
  case_bool_decide as Hone; split; split; intros H;
    try reflexivity; try assumption; try discriminate H; try contradiction.
Qed.

(** C2, as the code has it.  On a document in which a required path is
    absent or holds a value of another type, the projection panics with the
    run-time error of the first failed type assertion, in the order of the
    assertions in the code: the error carries the dynamic type found (nil
    for an absent path) and the asserted type.  [Run] prints no summary for
    that document and ends in the panic. *)
Theorem buildClusterInfo_malformed_panics (obj : Unstructured)
    (r : list string * gotype) :
  In r required_fields ->
  well_typed obj r = false ->
  exists path T,
    first_offending obj = Some (path, T) /\
    (forall c, exists c',
        buildClusterInfo obj c
        = (c', Stmt.Panics {| concrete := dyn_type (field obj path);
                              asserted := T |})) /\
    (forall o cl info rest s,
        client o = Some cl ->
        fetch o cl info = inl obj ->
        Run_loop o None (info :: rest) s
        = (emit (fetch_event o info) s,
           Some (Panicked (PanicTypeAssertion
                             {| concrete := dyn_type (field obj path);
                                asserted := T |})))).
Proof.
  intros Hin Hbad.
  destruct (first_offending obj) as [[path T]|] eqn:Hoff.
  - exists path, T. split; [reflexivity|]. split.
    + intros c. exact (buildClusterInfo_panics obj c path T Hoff).
    + intros o cl info rest s Hc Hf.
      destruct (buildClusterInfo_panics obj (init_clusterInfo info) path T Hoff)
        as [ci Hp].
      exact (Run_loop_projection_panics o cl info rest s obj ci _ Hc Hf Hp).
  - unfold first_offending in Hoff.
    pose proof (List.find_none _ _ Hoff r Hin) as Hr.
    cbv beta in Hr. rewrite Hbad in Hr. discriminate Hr.
Qed.


(** The test at the head of the loop body, taken alone: were the loop
    entered with a pending error, it would record it once.  [Run] never
    enters the loop so. *)
Lemma Run_loop_records_error_once (o : DescribeOptions)
    (err : option error) (infos : list resource.Info) (out0 : list event)
    (s : loop_state) (r : option result) :
  Run_loop o err infos {| allErrs := []; errs := ∅; out := out0 |} = (s, r) ->
  NoDup (map Error (allErrs s)) /\
  (forall e i1 i2 rest,
      err = Some e -> infos = i1 :: i2 :: rest ->
      allErrs s = [e] /\ r = None) /\
  (err = None -> allErrs s = []).
Proof.
  intros Hrun. split; [|split].
  - refine (proj1 (Run_loop_deduplicated o err infos _ s r _ Hrun)).
    split; cbn [allErrs errs map]; [apply NoDup_nil_2|].
    intros msg. set_solver.
  - intros e i1 i2 rest -> ->.
    rewrite Run_loop_pending_error in Hrun. cbn [errs] in Hrun.
    rewrite bool_decide_eq_false_2 in Hrun by set_solver.
    injection Hrun as <- <-. split; reflexivity.
  - intros ->. apply Run_loop_None_records_nothing in Hrun as [Ha _].
    exact Ha.
Qed.

(** C4.  [Run] records no error of a batch, and so deduplicates none.  When
    [Infos()] reports an error beside the identities it located, [Run]
    returns that error as it came, without a [Get]: two identical errors of
    the enumeration stay two.  When [Infos()] reports none, the loop is
    entered with a nil [err] and leaves [allErrs] and [errs] empty, so that
    a loop that runs to its end makes [Run] return nil. *)
Theorem Run_records_no_error (o : DescribeOptions)
    (newBuilder : resource.Builder -> resource.Result)
    (infos : list resource.Info) (err : option error) :
  NewBuilder o = Some newBuilder ->
  resource.Err (newBuilder (Run_builder o)) = None ->
  resource.Infos (newBuilder (Run_builder o)) = (infos, err) ->
  match err with
  | Some e => Run o = ([CallDo (Run_builder o)], Returns (Some e))
  | None =>
      forall s r,
        Run_loop o None infos
          {| allErrs := []; errs := ∅; out := [CallDo (Run_builder o)] |}
        = (s, r) ->
        allErrs s = [] /\ errs s = ∅ /\
        snd (Run o) = match r with Some res => res | None => Returns None end
  end.
Proof.
  intros Hnb Herr Hinfos. destruct err as [e|].
  - unfold Run. rewrite Hnb, Herr, Hinfos. reflexivity.
  - intros s r Hloop.
    destruct (Run_loop_None_records_nothing _ _ _ _ _ Hloop) as [Ha He].
    cbn [allErrs errs] in Ha, He.
    split; [exact Ha|]. split; [exact He|].
    unfold Run. rewrite Hnb, Herr, Hinfos, Hloop.
    destruct r as [res|]; [reflexivity|].
    destruct ((length infos =? 0)%nat && (length (allErrs s) =? 0)%nat)%bool;
      [destruct (AllNamespaces o)|]; cbn [emit allErrs snd]; rewrite Ha;
      reflexivity.
Qed.

(** C5.  When the builder locates no identity (and reports no error),
    [Run] writes the one line "No resources found" to [ErrOut], with the
    namespace unless [AllNamespaces] is set, prints no summary, and returns
    nil. *)
Theorem Run_no_resources_found (o : DescribeOptions)
    (newBuilder : resource.Builder -> resource.Result) :
  NewBuilder o = Some newBuilder ->
  resource.Err (newBuilder (Run_builder o)) = None ->
  resource.Infos (newBuilder (Run_builder o)) = ([], None) ->
  Run o
  = ([CallDo (Run_builder o);
      ErrOut (if AllNamespaces o
              then "No resources found" ++ newline
              else "No resources found in " ++ Namespace o ++ " namespace."
                   ++ newline)],
     Returns None).
Proof.
  intros Hnb Herr Hinfos. unfold Run. rewrite Hnb, Herr, Hinfos.
  cbn [Run_loop allErrs length Nat.eqb andb NewAggregate].
  destruct (AllNamespaces o); reflexivity.
Qed.

(** C6.  Whatever order [range] yields the label pairs in, a completed
    projection into a record with empty [Labels] (as [Run] passes it)
    leaves in [Labels] the concatenation of ["key:value "] over the pairs
    of the label set in that order; a label set [{env: prod}] gives
    ["env:prod "] and an empty one gives the empty string. *)
Theorem buildClusterInfo_labels (obj : Unstructured) (c c' : DBClusterInfo) :
  (forall m, range_order m ≡ₚ map_to_list m) ->
  Labels c = "" ->
  buildClusterInfo obj c = (c', Stmt.Done tt) ->
  (exists kvs, kvs ≡ₚ map_to_list (GetLabels obj) /\
               Labels c' = concat_labels kvs) /\
  (GetLabels obj = {[ "env" := "prod" ]} -> Labels c' = "env:prod ") /\
  (GetLabels obj = ∅ -> Labels c' = "").
Proof.
  intros Hperm Hempty Hrun.
  assert (Labels c' = concat_labels (range_order (GetLabels obj))) as Hl.
  { assert (snd (buildClusterInfo obj c) = Stmt.Done tt) as Hdone
      by (rewrite Hrun; reflexivity).
    apply buildClusterInfo_completes_iff, first_offending_None in Hdone
      as (v & i & b & sn & t & cs & oi & Hv & Hi & Hb & Hs & Ht & Hcs & Ho).
    rewrite (buildClusterInfo_done obj c v i b sn t cs oi) in Hrun by assumption.
    injection Hrun as <-. cbn [projected Labels]. rewrite Hempty. reflexivity. }
  split; [|split].
  - exists (range_order (GetLabels obj)). split; [apply Hperm|exact Hl].
  - intros Hm. rewrite Hl. pose proof (Hperm (GetLabels obj)) as Hp.
    rewrite Hm, map_to_list_singleton in Hp.
    apply Permutation_singleton_r in Hp. rewrite Hm, Hp. reflexivity.
  - intros Hm. rewrite Hl. pose proof (Hperm (GetLabels obj)) as Hp.
    rewrite Hm, map_to_list_empty in Hp.
    apply Permutation_nil_r in Hp. rewrite Hm, Hp. reflexivity.
Qed.

(** C7.  In every summary that [Run] projects, [RootUser], [DBPort] and
    [Engine] are the constants of the playground package and [Storage] is
    2, so that the summaries of any two documents agree on these four
    fields. *)
Theorem defaults_not_from_document (obj1 obj2 : Unstructured)
    (info1 info2 : resource.Info) (c1 c2 : DBClusterInfo) :
  buildClusterInfo obj1 (init_clusterInfo info1) = (c1, Stmt.Done tt) ->
  buildClusterInfo obj2 (init_clusterInfo info2) = (c2, Stmt.Done tt) ->
  (RootUser c1 = DefaultRootUser /\ DBPort c1 = DefaultPort /\
   Engine c1 = DefaultEngine /\ Storage c1 = 2) /\
  (RootUser c2 = RootUser c1 /\ DBPort c2 = DBPort c1 /\
   Engine c2 = Engine c1 /\ Storage c2 = Storage c1).
Proof.
  assert (forall obj info c,
             buildClusterInfo obj (init_clusterInfo info) = (c, Stmt.Done tt) ->
             RootUser c = DefaultRootUser /\ DBPort c = DefaultPort /\
             Engine c = DefaultEngine /\ Storage c = 2) as Hone.
  { intros obj info c Hrun.
    assert (snd (buildClusterInfo obj (init_clusterInfo info)) = Stmt.Done tt)
      as Hdone by (rewrite Hrun; reflexivity).
    apply buildClusterInfo_completes_iff, first_offending_None in Hdone
      as (v & i & b & sn & t & cs & oi & Hv & Hi & Hb & Hs & Ht & Hcs & Ho).
    rewrite (buildClusterInfo_done obj _ v i b sn t cs oi) in Hrun by assumption.
    injection Hrun as <-. repeat split. }
  intros H1 H2.
  destruct (Hone _ _ _ H1) as (Hu1 & Hp1 & He1 & Hs1).
  destruct (Hone _ _ _ H2) as (Hu2 & Hp2 & He2 & Hs2).
  repeat split; congruence.
Qed.

(** C8.  With no argument, [Complete] returns an error at once: it calls
    nothing on the factory and leaves the options as they were. *)
Theorem Complete_requires_name (f : Factory) (o : DescribeOptions) :
  Complete f [] o
  = (o, [],
     Some (errorString "You must specify the database cluster name to describe.")).
Proof. reflexivity. Qed.


(** C10.  When the REST configuration cannot be obtained, [Complete]
    returns nil: the error is dropped, [dynamic.NewForConfig] is not
    called, and [client] and [NewBuilder] stay as they were. *)
Theorem Complete_swallows_config_error (f : Factory) (args : list string)
    (o : DescribeOptions) (ns : string) (enforce : bool) (e : error) :
  args <> [] ->
  ToRawKubeConfigLoader_Namespace f = (ns, enforce, None) ->
  ToRESTConfig f = inr e ->
  exists o',
    Complete f args o = (o', [CallNamespace; CallToRESTConfig], None) /\
    client o' = client o /\ NewBuilder o' = NewBuilder o.
Proof.
  intros Hargs Hns Hcfg. unfold Complete.
  destruct args as [|a args]; [contradiction|].
  cbn [length Nat.eqb]. rewrite Hns, Hcfg.
  eexists. split; [reflexivity|].
  destruct (AllNamespaces _); split; reflexivity.
Qed.

(** [Run] on options that [Complete] left without a builder. *)
Lemma Run_without_builder (o : DescribeOptions) :
  NewBuilder o = None -> Run o = ([], Panicked PanicNilDereference).
Proof. intros H. unfold Run. rewrite H. reflexivity. Qed.

(** *** Further properties of the projection *)

Ltac state_at H c :=
  eval_checks H; injection H as <- <-;
  repeat (cbn [lookup_path assert_map assert_string assert_int64
               Stmt.ret Stmt.store Stmt.load Stmt.fail];
          match goal with
          | E : index ?m ?k = _ |- context [index ?m ?k] => rewrite E
          end);
  destruct c; cbn; repeat split; reflexivity.

(** The record that a panic of the projection leaves behind: the labels are
    appended, and the fields that the last statements derive are untouched. *)
Lemma buildClusterInfo_state_on_panic (obj : Unstructured) (c : DBClusterInfo)
    (path : list string) (T : gotype) :
  first_offending obj = Some (path, T) ->
  let c' := fst (buildClusterInfo obj c) in
  RootUser c' = RootUser c /\ DBPort c' = DBPort c /\
  DBNamespace c' = DBNamespace c /\ DBCluster c' = DBCluster c /\
  Labels c' = Labels c ++ concat_labels (range_order (GetLabels obj)) /\
  Topology c' = Topology c /\ Engine c' = Engine c /\ Storage c' = Storage c.
Proof.
  unfold first_offending, required_fields, well_typed, field, buildClusterInfo,
    Stmt.bind.
  rewrite range_labels_appends.
  cbn [List.find lookup_path fst snd].
  destruct (index (Object obj) "status") as [| | | | |st|] eqn:Hstatus;
    intros H; try (state_at H c).
  destruct (index st "cluster") as [| | | | |cl|] eqn:Hcluster;
    try (state_at H c).
  destruct (index (Object obj) "spec") as [| | | | |spec|] eqn:Hspec;
    try (state_at H c).
  destruct (index spec "version") eqn:Hv; try (state_at H c).
  destruct (index spec "instances") eqn:Hi; try (state_at H c).
  destruct (index spec "baseServerId") eqn:Hb; try (state_at H c).
  destruct (index spec "secretName") eqn:Hs; try (state_at H c).
  destruct (index st "createTime") eqn:Ht; try (state_at H c).
  destruct (index cl "status") eqn:Hcs; try (state_at H c).
  destruct (index cl "onlineInstances") eqn:Ho; try (state_at H c).
  eval_checks H. discriminate H.
Qed.

(** X1.  Whether it completes or panics, the projection leaves the four fields
    that [Run] sets before the call as they are: the root user, the port and
    the identity of the cluster. *)
Theorem buildClusterInfo_preserves_identity (obj : Unstructured)
    (c : DBClusterInfo) :
  let c' := fst (buildClusterInfo obj c) in
  RootUser c' = RootUser c /\ DBPort c' = DBPort c /\
  DBNamespace c' = DBNamespace c /\ DBCluster c' = DBCluster c.
Proof.
  destruct (first_offending obj) as [[path T]|] eqn:Hoff.
  - pose proof (buildClusterInfo_state_on_panic obj c path T Hoff) as H.
    cbv zeta in *. tauto.
  - destruct (first_offending_None obj Hoff)
      as (v & i & b & sn & t & cs & oi & Hv & Hi & Hb & Hs & Ht & Hcs & Ho).
    rewrite (buildClusterInfo_done obj c v i b sn t cs oi) by assumption.
    cbn. repeat split.
Qed.

(** X2.  A projection that panics has already appended the labels to [Labels],
    and has not yet written [Topology], [Engine] or [Storage]. *)
Theorem buildClusterInfo_panic_is_partial (obj : Unstructured)
    (c c' : DBClusterInfo) (e : TypeAssertionError) :
  buildClusterInfo obj c = (c', Stmt.Panics e) ->
  Labels c' = Labels c ++ concat_labels (range_order (GetLabels obj)) /\
  Topology c' = Topology c /\ Engine c' = Engine c /\ Storage c' = Storage c.
Proof.
  intros Hrun.
  destruct (first_offending obj) as [[path T]|] eqn:Hoff.
  - pose proof (buildClusterInfo_state_on_panic obj c path T Hoff) as H.
    cbv zeta in H. rewrite Hrun in H. cbn [fst] in H. tauto.
  - apply (buildClusterInfo_completes_iff obj c) in Hoff.
    rewrite Hrun in Hoff. discriminate Hoff.
Qed.

(** *** Further properties of [Complete] *)

(** X5.  When the kubeconfig yields no namespace, [Complete] returns that error
    after the one call; by then it has already written what the call
    returned into [Namespace] and [EnforceNamespace], and nothing else. *)
Theorem Complete_namespace_error (f : Factory) (args : list string)
    (o : DescribeOptions) (ns : string) (enforce : bool) (e : error) :
  args <> [] ->
  ToRawKubeConfigLoader_Namespace f = (ns, enforce, Some e) ->
  Complete f args o
  = (set_EnforceNamespace enforce (set_Namespace ns o), [CallNamespace], Some e).
Proof.
  intros Hargs Hns. unfold Complete.
  destruct args as [|a args]; [contradiction|].
  cbn [length Nat.eqb]. rewrite Hns. reflexivity.
Qed.

(** X6.  When the dynamic client cannot be built, [Complete] returns that error:
    [client] and [NewBuilder] stay as they were, while [BuilderArgs] already
    holds the source name and the arguments. *)
Theorem Complete_client_error (f : Factory) (args : list string)
    (o : DescribeOptions) (ns : string) (enforce : bool)
    (config : rest.Config) (e : error) :
  args <> [] ->
  ToRawKubeConfigLoader_Namespace f = (ns, enforce, None) ->
  ToRESTConfig f = inl config ->
  NewForConfig config = inr e ->
  exists o',
    Complete f args o
    = (o', [CallNamespace; CallToRESTConfig; CallNewForConfig config], Some e) /\
    client o' = client o /\ NewBuilder o' = NewBuilder o /\
    BuilderArgs o' = PlaygroundSourceName :: args.
Proof.
  intros Hargs Hns Hcfg Hnew. unfold Complete.
  destruct args as [|a args]; [contradiction|].
  cbn [length Nat.eqb]. rewrite Hns, Hcfg, Hnew.
  eexists. split; [reflexivity|].
  destruct (AllNamespaces _); repeat split; reflexivity.
Qed.

(** X7.  [Complete] reports success exactly when an argument is given, the
    namespace is resolved, and either the REST configuration is missing or
    the client is built from it. *)
Theorem Complete_nil_iff (f : Factory) (args : list string)
    (o : DescribeOptions) :
  snd (Complete f args o) = None <->
  args <> [] /\
  snd (ToRawKubeConfigLoader_Namespace f) = None /\
  match ToRESTConfig f with
  | inr _ => True
  | inl config => exists c, NewForConfig config = inl c
  end.
Proof.
  unfold Complete. destruct args as [|a args].
  - cbn [length Nat.eqb snd]. split; [discriminate|intros [[] _]; reflexivity].
  - cbn [length Nat.eqb].
    destruct (ToRawKubeConfigLoader_Namespace f) as [[ns enforce] [e|]];
      cbn [snd].
    + split; [discriminate|intros (_ & H & _); discriminate H].
    + destruct (ToRESTConfig f) as [config|e]; cbn [snd].
      * destruct (NewForConfig config) as [c|e]; cbn [snd].
        -- split; [|reflexivity]. intros _. split; [discriminate|].
           split; [reflexivity|]. exists c. reflexivity.
        -- split; [discriminate|]. intros (_ & _ & c & Hc). discriminate Hc.
      * split; [|reflexivity]. intros _. split; [discriminate|]. auto.
Qed.

(** X8.  Whatever the factory answers, [Complete] leaves [AllNamespaces],
    [DescriberSettings] and [FilenameOptions] as they were. *)
Theorem Complete_frame (f : Factory) (args : list string) (o : DescribeOptions) :
  let o' := fst (fst (Complete f args o)) in
  AllNamespaces o' = AllNamespaces o /\
  DescriberSettings o' = DescriberSettings o /\
  FilenameOptions o' = FilenameOptions o.
Proof.
  unfold Complete. destruct args as [|a args]; cbn [length Nat.eqb fst].
  - repeat split.
  - destruct (ToRawKubeConfigLoader_Namespace f) as [[ns enforce] [e|]];
      cbn [fst]; [repeat split|].
    destruct (ToRESTConfig f) as [config|e]; cbn [fst].
    + destruct (NewForConfig config) as [c|e]; cbn [fst];
        destruct (AllNamespaces (set_EnforceNamespace enforce (set_Namespace ns o)));
        repeat split.
    + destruct (AllNamespaces (set_EnforceNamespace enforce (set_Namespace ns o)));
        repeat split.
Qed.

(** X9.  [Complete] calls the factory in one order and stops at the first
    failure: with no argument it calls nothing; otherwise it resolves the
    namespace, asks for the REST configuration only if that succeeded, and
    builds the client only if a configuration came back, from that
    configuration. *)
Theorem Complete_calls_in_order (f : Factory) (args : list string)
    (o : DescribeOptions) :
  snd (fst (Complete f args o))
  = match args with
    | [] => []
    | _ :: _ =>
        CallNamespace
          :: match snd (ToRawKubeConfigLoader_Namespace f) with
             | Some _ => []
             | None =>
                 CallToRESTConfig
                   :: match ToRESTConfig f with
                      | inr _ => []
                      | inl config => [CallNewForConfig config]
                      end
             end
    end.
Proof.
  unfold Complete. destruct args as [|a args]; cbn [length Nat.eqb fst snd].
  - reflexivity.
  - destruct (ToRawKubeConfigLoader_Namespace f) as [[ns enforce] [e|]];
      cbn [fst snd]; [reflexivity|].
    destruct (ToRESTConfig f) as [config|e]; cbn [fst snd]; [|reflexivity].
    destruct (NewForConfig config); reflexivity.
Qed.

(** X10.  After a [Complete] that returned nil on a factory with a REST
    configuration, the options are ready for [Run]: the client is the one
    built from the configuration, the builder is the factory's, the builder
    arguments are the source name followed by the arguments, and the
    namespace is enforced only if the kubeconfig says so and
    [AllNamespaces] is not set. *)
Theorem Complete_ready (f : Factory) (args : list string)
    (o o' : DescribeOptions) (calls : list event) (config : rest.Config) :
  Complete f args o = (o', calls, None) ->
  ToRESTConfig f = inl config ->
  exists c,
    NewForConfig config = inl c /\
    client o' = Some c /\
    NewBuilder o' = Some (Factory_NewBuilder f) /\
    BuilderArgs o' = PlaygroundSourceName :: args /\
    Namespace o' = fst (fst (ToRawKubeConfigLoader_Namespace f)) /\
    EnforceNamespace o'
    = (snd (fst (ToRawKubeConfigLoader_Namespace f)) && negb (AllNamespaces o))%bool.
Proof.
  unfold Complete. destruct args as [|a args]; cbn [length Nat.eqb];
    [discriminate|].
  destruct (ToRawKubeConfigLoader_Namespace f) as [[ns enforce] [e|]];
    [discriminate|].
  intros Hrun Hcfg. rewrite Hcfg in Hrun.
  destruct (NewForConfig config) as [c|e]; [|discriminate].
  injection Hrun as <- _. exists c. cbn [fst snd].
  destruct o as [ns0 d nb ba en alln ds fo cl]; cbn.
  destruct alln, enforce; repeat split.
Qed.

(** *** Further properties of [Run] *)

Lemma loop_event_cons (o : DescribeOptions) (info : resource.Info)
    (infos : list resource.Info) (e : event) :
  loop_event o infos e -> loop_event o (info :: infos) e.
Proof.
  destruct e as [| | | |g ns n|ci|line]; cbn [loop_event];
    try (intros H; exact H).
  - intros (i & Hi & He). exists i. split; [right; exact Hi|exact He].
  - intros (c & i & obj & Hc & Hi & Hf & Hb).
    exists c, i, obj. split; [exact Hc|]. split; [right; exact Hi|]. auto.
Qed.

Lemma loop_result_cons (o : DescribeOptions) (info : resource.Info)
    (infos : list resource.Info) (r : option result) :
  loop_result o infos r -> loop_result o (info :: infos) r.
Proof.
  destruct r as [[[e|]|[e|]]|]; cbn [loop_result]; try (intros H; exact H).
  - intros (c & i & Hc & Hi & Hf). exists c, i.
    split; [exact Hc|]. split; [right; exact Hi|exact Hf].
  - intros (c & i & obj & ci & Hc & Hi & Hf & Hb). exists c, i, obj, ci.
    split; [exact Hc|]. split; [right; exact Hi|]. auto.
  - intros [Hc _]. split; [exact Hc|discriminate].
Qed.

(** Everything the loop emits and every way it leaves [Run]. *)
Lemma Run_loop_None_events (o : DescribeOptions) (infos : list resource.Info)
    (s s' : loop_state) (r : option result) :
  Run_loop o None infos s = (s', r) ->
  exists evs,
    out s' = (out s ++ evs)%list /\
    Forall (loop_event o infos) evs /\
    loop_result o infos r.
Proof.
  revert s. induction infos as [|info infos IH]; intros s; cbn [Run_loop].
  - intros [= <- <-]. exists []. rewrite app_nil_r.
    split; [reflexivity|]. split; [constructor|exact I].
  - destruct (client o) as [c|] eqn:Hc.
    2:{ intros [= <- <-]. exists []. rewrite app_nil_r.
        split; [reflexivity|]. split; [constructor|].
        cbn [loop_result]. split; [exact Hc|discriminate]. }
    destruct (c _ _ _) as [obj|e] eqn:Hf.
    2:{ intros [= <- <-]. exists [fetch_event o info].
        split; [reflexivity|]. split.
        - constructor; [|constructor]. exists info.
          split; [left; reflexivity|reflexivity].
        - cbn [loop_result]. exists c, info.
          split; [exact Hc|]. split; [left; reflexivity|exact Hf]. }
    destruct (buildClusterInfo obj _) as [ci [[]|e]] eqn:Hb.
    2:{ intros [= <- <-]. exists [fetch_event o info].
        split; [reflexivity|]. split.
        - constructor; [|constructor]. exists info.
          split; [left; reflexivity|reflexivity].
        - cbn [loop_result]. exists c, info, obj, ci.
          split; [exact Hc|]. split; [left; reflexivity|].
          split; [exact Hf|exact Hb]. }
    intros Hrun. apply IH in Hrun as (evs & Hout & Hevs & Hres).
    exists (fetch_event o info :: PrintClusterInfo ci :: evs).
    split; [|split].
    + rewrite Hout. cbn [emit out]. rewrite <- !app_assoc. reflexivity.
    + constructor; [|constructor].
      * exists info. split; [left; reflexivity|reflexivity].
      * cbn [loop_event]. exists c, info, obj.
        split; [exact Hc|]. split; [left; reflexivity|].
        split; [exact Hf|exact Hb].
      * eapply Forall_impl; [exact Hevs|]. intros e. apply loop_event_cons.
    + apply loop_result_cons, Hres.
Qed.

Lemma printed_app (a b : list event) :
  printed (a ++ b) = (printed a ++ printed b)%list.
Proof.
  induction a as [|e a IH]; [reflexivity|].
  destruct e; cbn [app printed]; rewrite ?IH; reflexivity.
Qed.

(** The summaries come out in the order of the batch, one for each identity
    up to the one at which the loop stopped. *)
Lemma Run_loop_None_printed (o : DescribeOptions) (infos : list resource.Info)
    (s s' : loop_state) (r : option result) :
  Run_loop o None infos s = (s', r) ->
  exists k,
    printed (out s')
    = (printed (out s)
       ++ map (fun i => (resource.Namespace i, resource.Name i)) (take k infos))%list /\
    (r = None -> k = length infos).
Proof.
  revert s. induction infos as [|info infos IH]; intros s; cbn [Run_loop].
  - intros [= <- <-]. exists 0%nat. cbn. rewrite app_nil_r. auto.
  - destruct (client o) as [c|] eqn:Hc.
    2:{ intros [= <- <-]. exists 0%nat. cbn. rewrite app_nil_r.
        split; [reflexivity|discriminate]. }
    destruct (c _ _ _) as [obj|e] eqn:Hf.
    2:{ intros [= <- <-]. exists 0%nat. cbn [emit out take map].
        rewrite printed_app. cbn. split; [reflexivity|discriminate]. }
    destruct (buildClusterInfo obj _) as [ci [[]|e]] eqn:Hb.
    2:{ intros [= <- <-]. exists 0%nat. cbn [emit out take map].
        rewrite printed_app. cbn. split; [reflexivity|discriminate]. }
    intros Hrun. apply IH in Hrun as (k & Hp & Hk).
    exists (S k). split; [|intros Hr; cbn [length]; f_equal; exact (Hk Hr)].
    rewrite Hp. cbn [emit out take map]. rewrite !printed_app.
    cbn [printed app]. rewrite <- !app_assoc. cbn [app].
    assert (snd (buildClusterInfo obj (init_clusterInfo info)) = Stmt.Done tt)
      as Hdone by (unfold init_clusterInfo; rewrite Hb; reflexivity).
    apply buildClusterInfo_completes_iff, first_offending_None in Hdone
      as (v & n & b & sn & t & cs & oi & Hv & Hn & Hbs & Hs & Ht & Hcs & Ho).
    rewrite (buildClusterInfo_done obj _ v n b sn t cs oi) in Hb by assumption.
    injection Hb as <-. reflexivity.
Qed.

(** [Run] once the builder has located a batch: the query, the events of the
    loop, and at most the line for an empty batch. *)
Lemma Run_anatomy (o : DescribeOptions)
    (newBuilder : resource.Builder -> resource.Result)
    (infos : list resource.Info) :
  NewBuilder o = Some newBuilder ->
  resource.Err (newBuilder (Run_builder o)) = None ->
  resource.Infos (newBuilder (Run_builder o)) = (infos, None) ->
  exists evs r tail,
    Run o = (CallDo (Run_builder o) :: evs ++ tail,
             match r with Some res => res | None => Returns None end) /\
    Forall (loop_event o infos) evs /\
    loop_result o infos r /\
    (tail = [] \/
     tail = [ErrOut (no_resources_found o)] /\ infos = [] /\ r = None) /\
    (exists k,
        printed evs
        = map (fun i => (resource.Namespace i, resource.Name i)) (take k infos) /\
        (r = None -> k = length infos)).
Proof.
  intros Hnb Herr Hinfos. unfold Run. rewrite Hnb, Herr, Hinfos.
  destruct (Run_loop o None infos _) as [s r] eqn:Hloop.
  destruct (Run_loop_None_events _ _ _ _ _ Hloop) as (evs & Hout & Hevs & Hres).
  destruct (Run_loop_None_printed _ _ _ _ _ Hloop) as (k & Hp & Hk).
  destruct (Run_loop_None_records_nothing _ _ _ _ _ Hloop) as [Ha _].
  cbn [out allErrs] in Hout, Hp, Ha.
  rewrite Hout, printed_app in Hp. cbn [printed app] in Hp.
  destruct r as [res|].
  - exists evs, (Some res), []. rewrite app_nil_r, Hout.
    split; [reflexivity|]. split; [exact Hevs|]. split; [exact Hres|].
    split; [left; reflexivity|]. exists k. split; [exact Hp|exact Hk].
  - rewrite Ha. cbn [length Nat.eqb andb NewAggregate].
    destruct infos as [|i infos]; cbn [length Nat.eqb andb].
    + exists evs, None, [ErrOut (no_resources_found o)].
      split.
      { unfold no_resources_found.
        destruct (AllNamespaces o); cbn [emit out allErrs]; rewrite Hout, Ha;
          reflexivity. }
      split; [exact Hevs|]. split; [exact I|].
      split; [right; auto|]. exists k. split; [exact Hp|exact Hk].
    + exists evs, None, []. cbn [out allErrs]. rewrite app_nil_r, Hout, ?Ha.
      split; [reflexivity|]. split; [exact Hevs|]. split; [exact I|].
      split; [left; reflexivity|]. exists k. split; [exact Hp|exact Hk].
Qed.

(** X11.  An error of the builder, from [Err()] or from [Infos()], ends [Run] with
    that error after the query alone: whatever identities [Infos()] returned
    beside its error are dropped, none is fetched. *)
Theorem Run_locator_error (o : DescribeOptions)
    (newBuilder : resource.Builder -> resource.Result)
    (infos : list resource.Info) (e : error) :
  NewBuilder o = Some newBuilder ->
  resource.Err (newBuilder (Run_builder o)) = Some e \/
  resource.Err (newBuilder (Run_builder o)) = None /\
  resource.Infos (newBuilder (Run_builder o)) = (infos, Some e) ->
  Run o = ([CallDo (Run_builder o)], Returns (Some e)).
Proof.
  intros Hnb [Herr|[Herr Hinfos]]; unfold Run; rewrite Hnb, Herr;
    [reflexivity|]. rewrite Hinfos. reflexivity.
Qed.


(** X13.  Every [Get] that [Run] issues, on any batch and however it ends, is for
    an identity of the batch and in the namespace of the options. *)
Theorem Run_gets_only_the_batch (o : DescribeOptions)
    (gvr : schema.GroupVersionResource) (ns name : string) :
  In (CallGet gvr ns name) (fst (Run o)) ->
  ns = Namespace o /\
  exists newBuilder i,
    NewBuilder o = Some newBuilder /\
    In i (fst (resource.Infos (newBuilder (Run_builder o)))) /\
    gvr = meta.Resource (resource.Mapping i) /\ name = resource.Name i.
Proof.
  destruct (NewBuilder o) as [nb|] eqn:Hnb.
  2:{ unfold Run. rewrite Hnb. intros []. }
  destruct (resource.Err (nb (Run_builder o))) as [e|] eqn:Herr.
  { unfold Run. rewrite Hnb, Herr. intros [H|[]]. discriminate H. }
  destruct (resource.Infos (nb (Run_builder o))) as [infos [e|]] eqn:Hinfos.
  { unfold Run. rewrite Hnb, Herr, Hinfos. intros [H|[]]. discriminate H. }
  destruct (Run_anatomy o nb infos Hnb Herr Hinfos)
    as (evs & r & tail & Hrun & Hevs & _ & Htail & _).
  rewrite Hrun. cbn [fst]. intros [H|H]; [discriminate H|].
  apply in_app_or in H as [H|H].
  - rewrite Forall_forall in Hevs. apply list_elem_of_In, Hevs in H.
    cbn [loop_event] in H. destruct H as (i & Hi & [= -> -> ->]).
    split; [reflexivity|]. exists nb, i. rewrite Hinfos. cbn [fst].
    repeat split; auto.
  - destruct Htail as [->|(-> & _)]; [destruct H|].
    destruct H as [H|[]]. discriminate H.
Qed.

(** X14.  Every summary that [Run] prints, on any batch and however it ends, is
    that of an identity of the batch: it carries the identity's namespace and
    name, the constants of the playground package and a storage of 2, and a
    topology that agrees with its instances. *)
Theorem Run_prints_only_projections (o : DescribeOptions) (ci : DBClusterInfo) :
  In (PrintClusterInfo ci) (fst (Run o)) ->
  (exists newBuilder i,
      NewBuilder o = Some newBuilder /\
      In i (fst (resource.Infos (newBuilder (Run_builder o)))) /\
      DBNamespace ci = resource.Namespace i /\ DBCluster ci = resource.Name i) /\
  RootUser ci = DefaultRootUser /\ DBPort ci = DefaultPort /\
  Engine ci = DefaultEngine /\ Storage ci = 2 /\
  (Topology ci = "Standalone" /\ Instances ci = 1 \/
   Topology ci = "Cluster" /\ Instances ci <> 1).
Proof.
  destruct (NewBuilder o) as [nb|] eqn:Hnb.
  2:{ unfold Run. rewrite Hnb. intros []. }
  destruct (resource.Err (nb (Run_builder o))) as [e|] eqn:Herr.
  { unfold Run. rewrite Hnb, Herr. intros [H|[]]. discriminate H. }
  destruct (resource.Infos (nb (Run_builder o))) as [infos [e|]] eqn:Hinfos.
  { unfold Run. rewrite Hnb, Herr, Hinfos. intros [H|[]]. discriminate H. }
  destruct (Run_anatomy o nb infos Hnb Herr Hinfos)
    as (evs & r & tail & Hrun & Hevs & _ & Htail & _).
  rewrite Hrun. cbn [fst]. intros [H|H]; [discriminate H|].
  apply in_app_or in H as [H|H].
  2:{ destruct Htail as [->|(-> & _)]; [destruct H|].
      destruct H as [H|[]]. discriminate H. }
  rewrite Forall_forall in Hevs. apply list_elem_of_In, Hevs in H.
  cbn [loop_event] in H. destruct H as (c & i & obj & Hc & Hi & Hf & Hb).
  assert (snd (buildClusterInfo obj (init_clusterInfo i)) = Stmt.Done tt)
    as Hdone by (rewrite Hb; reflexivity).
  apply buildClusterInfo_completes_iff, first_offending_None in Hdone
    as (v & n & b & sn & t & cs & oi & Hv & Hn & Hbs & Hs & Ht & Hcs & Ho).
  rewrite (buildClusterInfo_done obj _ v n b sn t cs oi) in Hb by assumption.
  injection Hb as <-. split.
  - exists nb, i. rewrite Hinfos. cbn. repeat split; auto.
  - cbn. repeat (split; [reflexivity|]).
    case_bool_decide; [left|right]; auto.
Qed.

(** X15.  An error that [Run] returns is one that a collaborator handed to it: the
    builder through [Err()] or [Infos()], or the client on the [Get] of an
    identity of the batch.  [Run] builds no error of its own. *)
Theorem Run_error_from_collaborator (o : DescribeOptions) (e : error) :
  snd (Run o) = Returns (Some e) ->
  exists newBuilder,
    NewBuilder o = Some newBuilder /\
    (resource.Err (newBuilder (Run_builder o)) = Some e \/
     snd (resource.Infos (newBuilder (Run_builder o))) = Some e \/
     exists c i,
       client o = Some c /\
       In i (fst (resource.Infos (newBuilder (Run_builder o)))) /\
       fetch o c i = inr e).
Proof.
  destruct (NewBuilder o) as [nb|] eqn:Hnb.
  2:{ unfold Run. rewrite Hnb. discriminate. }
  intros Hrun. exists nb. split; [reflexivity|].
  destruct (resource.Err (nb (Run_builder o))) as [e'|] eqn:Herr.
  { unfold Run in Hrun. rewrite Hnb, Herr in Hrun. left. cbn in Hrun. congruence. }
  destruct (resource.Infos (nb (Run_builder o))) as [infos [e'|]] eqn:Hinfos.
  { unfold Run in Hrun. rewrite Hnb, Herr, Hinfos in Hrun.
    right. left. cbn in Hrun |- *. congruence. }
  right. right.
  destruct (Run_anatomy o nb infos Hnb Herr Hinfos)
    as (evs & r & tail & Hr & _ & Hres & _ & _).
  rewrite Hr in Hrun. cbn [snd fst] in *.
  destruct r as [res|]; [|discriminate Hrun]. subst res.
  exact Hres.
Qed.

(** X16.  [Run] writes to [ErrOut] only for an empty batch: the line is then the
    "No resources found" one and [Run] returns nil. *)
Theorem Run_ErrOut_only_when_empty (o : DescribeOptions) (line : string) :
  In (ErrOut line) (fst (Run o)) ->
  line = no_resources_found o /\
  snd (Run o) = Returns None /\
  exists newBuilder,
    NewBuilder o = Some newBuilder /\
    resource.Infos (newBuilder (Run_builder o)) = ([], None).
Proof.
  destruct (NewBuilder o) as [nb|] eqn:Hnb.
  2:{ unfold Run. rewrite Hnb. intros []. }
  destruct (resource.Err (nb (Run_builder o))) as [e|] eqn:Herr.
  { unfold Run. rewrite Hnb, Herr. intros [H|[]]. discriminate H. }
  destruct (resource.Infos (nb (Run_builder o))) as [infos [e|]] eqn:Hinfos.
  { unfold Run. rewrite Hnb, Herr, Hinfos. intros [H|[]]. discriminate H. }
  destruct (Run_anatomy o nb infos Hnb Herr Hinfos)
    as (evs & r & tail & Hrun & Hevs & _ & Htail & _).
  rewrite Hrun. cbn [fst snd]. intros [H|H]; [discriminate H|].
  apply in_app_or in H as [H|H].
  - rewrite Forall_forall in Hevs. apply list_elem_of_In, Hevs in H.
    destruct H.
  - destruct Htail as [->|(-> & -> & ->)]; [destruct H|].
    destruct H as [[= <-]|[]]. split; [reflexivity|]. split; [reflexivity|].
    exists nb. auto.
Qed.

(** X17.  The summaries are printed in the order of the batch, one for each
    identity up to the one at which [Run] stopped; a [Run] that returns nil
    has printed one for every identity. *)
Theorem Run_prints_in_order (o : DescribeOptions)
    (newBuilder : resource.Builder -> resource.Result)
    (infos : list resource.Info) :
  NewBuilder o = Some newBuilder ->
  resource.Err (newBuilder (Run_builder o)) = None ->
  resource.Infos (newBuilder (Run_builder o)) = (infos, None) ->
  exists k,
    printed (fst (Run o))
    = map (fun i => (resource.Namespace i, resource.Name i)) (take k infos) /\
    (snd (Run o) = Returns None -> k = length infos).
Proof.
  intros Hnb Herr Hinfos.
  destruct (Run_anatomy o newBuilder infos Hnb Herr Hinfos)
    as (evs & r & tail & Hrun & _ & Hres & Htail & k & Hp & Hk).
  exists k. rewrite Hrun. cbn [fst snd printed]. rewrite printed_app. split.
  - destruct Htail as [->|(-> & _)]; cbn [printed]; rewrite app_nil_r; exact Hp.
  - destruct r as [res|]; [|auto]. intros ->. destruct Hres.
Qed.

(** *** The command *)

(** X18.  When the REST configuration cannot be loaded, the command does not
    report it: [Complete] returns nil with [NewBuilder] unset, and [Run]
    panics on calling it, before any query. *)
Theorem describe_config_failure_crashes (f : Factory) (args : list string)
    (ns : string) (enforce : bool) (e : error) :
  args <> [] ->
  ToRawKubeConfigLoader_Namespace f = (ns, enforce, None) ->
  ToRESTConfig f = inr e ->
  NewDescribeCmd_Run f args
  = ([CallNamespace; CallToRESTConfig], Crashed PanicNilDereference).
Proof.
  intros Hargs Hns Hcfg. unfold NewDescribeCmd_Run, Complete.
  destruct args as [|a args]; [contradiction|].
  cbn [length Nat.eqb]. rewrite Hns, Hcfg.
  rewrite Run_without_builder; reflexivity.
Qed.

(** X19.  When the preparation succeeds and the builder locates nothing, the
    command queries the builder for the source name followed by the
    arguments, in the namespace of the kubeconfig and never across all
    namespaces, writes the line that names the namespace, and completes. *)
Theorem describe_nothing_found (f : Factory) (args : list string)
    (ns : string) (enforce : bool) (config : rest.Config)
    (c : dynamic.Interface) :
  let b :=
    {| resource.Unstructured_ := true;
       resource.ContinueOnError := true;
       resource.NamespaceParam := ns;
       resource.DefaultNamespace := true;
       resource.AllNamespaces := false;
       resource.FilenameParam :=
         (enforce, {| resource.Filenames := []; resource.Kustomize := "";
                      resource.Recursive := false |});
       resource.ResourceTypeOrNameArgs := (true, PlaygroundSourceName :: args);
       resource.RequestChunksOf := 0;
       resource.Flatten := true |} in
  args <> [] ->
  ToRawKubeConfigLoader_Namespace f = (ns, enforce, None) ->
  ToRESTConfig f = inl config ->
  NewForConfig config = inl c ->
  resource.Err (Factory_NewBuilder f b) = None ->
  resource.Infos (Factory_NewBuilder f b) = ([], None) ->
  NewDescribeCmd_Run f args
  = ([ CallNamespace; CallToRESTConfig; CallNewForConfig config; CallDo b;
       ErrOut ("No resources found in " ++ ns ++ " namespace." ++ newline) ],
     Completed).
Proof.
  intros b Hargs Hns Hcfg Hnew Herr Hinfos.
  unfold NewDescribeCmd_Run, Complete.
  destruct args as [|a args]; [contradiction|].
  cbn [length Nat.eqb]. rewrite Hns, Hcfg, Hnew.
  cbn [fresh_options AllNamespaces set_Namespace set_EnforceNamespace].
  unfold Run. cbn [NewBuilder set_NewBuilder].
  match goal with
  | |- context [Run_builder ?o'] => change (Run_builder o') with b
  end.
  rewrite Herr, Hinfos.
  cbn [Run_loop allErrs length Nat.eqb andb NewAggregate emit out app].
  reflexivity.
Qed.

(** X20.  When the preparation fails, the command ends on that error without a
    query to the builder or a [Get]. *)
Theorem describe_fatal_before_query (f : Factory) (args : list string)
    (e : error) :
  snd (Complete f args fresh_options) = Some e ->
  snd (NewDescribeCmd_Run f args) = Fatal e /\
  fst (NewDescribeCmd_Run f args) = snd (fst (Complete f args fresh_options)) /\
  forall ev, In ev (fst (NewDescribeCmd_Run f args)) ->
             ev = CallNamespace \/ ev = CallToRESTConfig \/
             exists config, ev = CallNewForConfig config.
Proof.
  unfold NewDescribeCmd_Run, Complete.
  destruct args as [|a args]; cbn [length Nat.eqb].
  - intros [= <-]. cbn [fst snd]. repeat split. intros ev [].
  - destruct (ToRawKubeConfigLoader_Namespace f) as [[ns enforce] [e'|]].
    + intros [= <-]. cbn [fst snd]. repeat split.
      intros ev [<-|[]]. auto.
    + destruct (ToRESTConfig f) as [config|e']; [|discriminate].
      destruct (NewForConfig config) as [c|e']; [discriminate|].
      intros [= <-]. cbn [fst snd]. repeat split.
      intros ev [<-|[<-|[<-|[]]]]; eauto.
Qed.

End Describe.

(** ** Two projections, each with the order of its own [range] *)

(** X3.  A completed projection overwrites every field it projects, whatever
    the record held, and appends to [Labels]: a second projection of the same
    document into the result changes nothing but [Labels], which then holds
    the labels twice, each time in the order that its own [range] took. *)
Theorem buildClusterInfo_twice (DefaultEngine : string)
    (order1 order2 : gmap string string -> list (string * string))
    (obj : Unstructured) (c c1 : DBClusterInfo) :
  buildClusterInfo DefaultEngine order1 obj c = (c1, Stmt.Done tt) ->
  exists c2,
    buildClusterInfo DefaultEngine order2 obj c1 = (c2, Stmt.Done tt) /\
    c2 = set_Labels (Labels c1 ++ concat_labels (order2 (GetLabels obj))) c1 /\
    Labels c2
    = Labels c ++ concat_labels (order1 (GetLabels obj))
              ++ concat_labels (order2 (GetLabels obj)).
Proof.
  intros Hrun.
  assert (snd (buildClusterInfo DefaultEngine order1 obj c) = Stmt.Done tt)
    as Hdone by (rewrite Hrun; reflexivity).
  apply buildClusterInfo_completes_iff, first_offending_None in Hdone
    as (v & i & b & sn & t & cs & oi & Hv & Hi & Hb & Hs & Ht & Hcs & Ho).
  rewrite (buildClusterInfo_done DefaultEngine order1 obj c v i b sn t cs oi)
    in Hrun by assumption.
  injection Hrun as <-.
  eexists. split;
    [apply (buildClusterInfo_done DefaultEngine order2 obj _ v i b sn t cs oi);
     assumption|].
  split; [reflexivity|]. cbn [projected Labels]. apply append_assoc.
Qed.

(** X4.  The projection reads nothing of a document but the seven fields and
    the label set: of two documents that agree on them, the first well
    formed, both project any record completely, and the two summaries differ
    at most in [Labels], where each holds the labels in the order that its
    own [range] took. *)
Theorem buildClusterInfo_reads_only_fields (DefaultEngine : string)
    (order1 order2 : gmap string string -> list (string * string))
    (obj1 obj2 : Unstructured) (c : DBClusterInfo) :
  first_offending obj1 = None ->
  GetLabels obj2 = GetLabels obj1 ->
  Forall (fun path => field obj2 path = field obj1 path)
         [ ["spec"; "version"]; ["spec"; "instances"]; ["spec"; "baseServerId"];
           ["spec"; "secretName"]; ["status"; "createTime"];
           ["status"; "cluster"; "status"];
           ["status"; "cluster"; "onlineInstances"] ] ->
  exists c1 c2,
    buildClusterInfo DefaultEngine order1 obj1 c = (c1, Stmt.Done tt) /\
    buildClusterInfo DefaultEngine order2 obj2 c = (c2, Stmt.Done tt) /\
    Labels c1 = Labels c ++ concat_labels (order1 (GetLabels obj1)) /\
    Labels c2 = Labels c ++ concat_labels (order2 (GetLabels obj1)) /\
    set_Labels "" c2 = set_Labels "" c1.
Proof.
  intros Hok Hlabels Hfields.
  destruct (first_offending_None obj1 Hok)
    as (v & i & b & sn & t & cs & oi & Hv & Hi & Hb & Hs & Ht & Hcs & Ho).
  repeat match goal with
         | H : Forall _ (_ :: _) |- _ =>
             apply Forall_cons_iff in H; destruct H as [? H]
         end.
  eexists _, _.
  split; [apply (buildClusterInfo_done DefaultEngine order1 obj1 c v i b sn t
                   cs oi); assumption|].
  split; [apply (buildClusterInfo_done DefaultEngine order2 obj2 c v i b sn t
                   cs oi); congruence|].
  cbn [projected Labels]. rewrite Hlabels. repeat split.
Qed.

(** ** The theorems at concrete inputs *)

(** The scenario document of the specification projects to its summary. *)
Lemma buildClusterInfo_scenario :
  exists c',
    buildClusterInfo sample_engine sample_order (scenario_doc 1 ∅)
      (new_clusterInfo sample_rootUser sample_port) = (c', Stmt.Done tt) /\
    Version c' = "8.0.30" /\ Instances c' = 1 /\ Topology c' = "Standalone" /\
    Status c' = "Running" /\ OnlineInstances c' = 1.
Proof.
  destruct (buildClusterInfo_well_formed sample_engine sample_order
              (scenario_doc 1 ∅) (new_clusterInfo sample_rootUser sample_port)
              "8.0.30" 1 1 "s1" "t0" "Running" 1)
    as (c' & Hrun & Hv & Hi & _ & _ & _ & Hs & Ho & Hstandalone & _);
    try (vm_compute; reflexivity).
  exists c'. repeat split; try assumption. apply Hstandalone, Hi.
Defined.

(** A document without [spec.version]: the projection stops at that
    assertion. *)
Lemma buildClusterInfo_without_version :
  exists path T,
    first_offending doc_without_version = Some (path, T) /\
    (forall c, exists c',
        buildClusterInfo sample_engine sample_order doc_without_version c
        = (c', Stmt.Panics {| concrete := dyn_type (field doc_without_version path);
                              asserted := T |})) /\
    (forall o cl info rest s,
        client o = Some cl ->
        fetch o cl info = inl doc_without_version ->
        Run_loop sample_rootUser sample_port sample_engine sample_order o None
          (info :: rest) s
        = (emit (fetch_event o info) s,
           Some (Panicked (PanicTypeAssertion
                             {| concrete := dyn_type (field doc_without_version path);
                                asserted := T |})))).
Proof.
  apply (buildClusterInfo_malformed_panics sample_rootUser sample_port
           sample_engine sample_order doc_without_version
           (["spec"; "version"], TString)).
  - do 3 right. left. reflexivity.
  - vm_compute. reflexivity.
Defined.

(** The error of the projection does not name the offending path: two
    documents that lack different fields panic with the same error, whose
    message holds the two types and nothing else, so that no reading of the
    error gives the path back. *)
Lemma malformed_error_names_no_path :
  first_offending doc_without_version = Some (["spec"; "version"], TString) /\
  first_offending doc_without_secretName = Some (["spec"; "secretName"], TString) /\
  snd (buildClusterInfo sample_engine sample_order doc_without_version
         (new_clusterInfo sample_rootUser sample_port))
  = Stmt.Panics {| concrete := None; asserted := TString |} /\
  snd (buildClusterInfo sample_engine sample_order doc_without_secretName
         (new_clusterInfo sample_rootUser sample_port))
  = Stmt.Panics {| concrete := None; asserted := TString |} /\
  TypeAssertionError_Error {| concrete := None; asserted := TString |}
  = "interface conversion: interface {} is nil, not string" /\
  ~ (exists path_of : TypeAssertionError -> list string,
        forall obj c path T,
          first_offending obj = Some (path, T) ->
          exists c' e,
            buildClusterInfo sample_engine sample_order obj c
            = (c', Stmt.Panics e) /\
            path_of e = path).
Proof.
  assert (first_offending doc_without_version = Some (["spec"; "version"], TString))
    as H1 by (vm_compute; reflexivity).
  assert (first_offending doc_without_secretName
          = Some (["spec"; "secretName"], TString))
    as H2 by (vm_compute; reflexivity).
  repeat split; try (vm_compute; reflexivity).
  intros [path_of Hnames].
  destruct (Hnames _ (new_clusterInfo sample_rootUser sample_port) _ _ H1)
    as (c1 & e1 & Hr1 & Hp1).
  destruct (Hnames _ (new_clusterInfo sample_rootUser sample_port) _ _ H2)
    as (c2 & e2 & Hr2 & Hp2).
  assert (e1 = {| concrete := None; asserted := TString |}) as ->.
  { apply (f_equal snd) in Hr1. vm_compute in Hr1. congruence. }
  assert (e2 = {| concrete := None; asserted := TString |}) as ->.
  { apply (f_equal snd) in Hr2. vm_compute in Hr2. congruence. }
  rewrite Hp1 in Hp2. discriminate Hp2.
Qed.


(** An enumeration that reports the same error for two identities. *)
Lemma Run_duplicate_errors :
  Run sample_rootUser sample_port sample_engine sample_order
    (sample_options_with (Some sample_client)
       (Some (partial_builder [sample_info "default" "mycluster"]
                duplicate_errors)))
  = ([CallDo (Run_builder
                (sample_options_with (Some sample_client)
                   (Some (partial_builder [sample_info "default" "mycluster"]
                duplicate_errors))))],
     Returns (Some (aggregate
                      [ errorString "no matches for kind DatabaseCluster";
                        errorString "no matches for kind DatabaseCluster" ]))).
Proof.
  apply (Run_records_no_error sample_rootUser sample_port sample_engine
           sample_order
           (sample_options_with (Some sample_client)
              (Some (partial_builder [sample_info "default" "mycluster"]
                duplicate_errors)))
           (partial_builder [sample_info "default" "mycluster"] duplicate_errors)
           [sample_info "default" "mycluster"] (Some duplicate_errors));
    reflexivity.
Defined.

(** An empty batch in the namespace [default]. *)
Lemma Run_empty_batch :
  Run sample_rootUser sample_port sample_engine sample_order
    (sample_options false [])
  = ([ CallDo (Run_builder (sample_options false []));
       ErrOut ("No resources found in default namespace." ++ newline) ],
     Returns None).
Proof.
  apply (Run_no_resources_found sample_rootUser sample_port sample_engine
           sample_order (sample_options false []) (sample_builder []));
    reflexivity.
Defined.

(** The labels [{env: prod}]. *)
Lemma buildClusterInfo_env_prod :
  Labels (fst (buildClusterInfo sample_engine sample_order
                 (scenario_doc 1 {[ "env" := VString "prod" ]})
                 (init_clusterInfo sample_rootUser sample_port
                    (sample_info "default" "labelled"))))
  = "env:prod ".
Proof.
  refine (proj1 (proj2 (buildClusterInfo_labels sample_engine sample_order
                          (scenario_doc 1 {[ "env" := VString "prod" ]})
                          (init_clusterInfo sample_rootUser sample_port
                             (sample_info "default" "labelled")) _ _ _ _)) _).
  - intros m. reflexivity.
  - reflexivity.
  - vm_compute. reflexivity.
  - vm_compute. reflexivity.
Defined.

(** Two documents, one standalone and one of three instances. *)
Lemma defaults_of_two_documents :
  let c1 :=
    fst (buildClusterInfo sample_engine sample_order (scenario_doc 1 ∅)
           (init_clusterInfo sample_rootUser sample_port
              (sample_info "default" "a"))) in
  let c2 :=
    fst (buildClusterInfo sample_engine sample_order
           (scenario_doc 3 {[ "env" := VString "prod" ]})
           (init_clusterInfo sample_rootUser sample_port
              (sample_info "prod" "b"))) in
  (RootUser c1 = "root" /\ DBPort c1 = "3306" /\ Engine c1 = "wesql" /\
   Storage c1 = 2) /\
  (RootUser c2 = RootUser c1 /\ DBPort c2 = DBPort c1 /\
   Engine c2 = Engine c1 /\ Storage c2 = Storage c1).
Proof.
  intros c1 c2.
  apply (defaults_not_from_document sample_rootUser sample_port sample_engine
           sample_order (scenario_doc 1 ∅)
           (scenario_doc 3 {[ "env" := VString "prod" ]})
           (sample_info "default" "a") (sample_info "prod" "b") c1 c2);
    vm_compute; reflexivity.
Defined.


(** A factory without a REST configuration. *)
Lemma Complete_without_config :
  exists o',
    Complete sample_sourceName sample_NewForConfig factory_without_config
      ["mycluster"] fresh_options
    = (o', [CallNamespace; CallToRESTConfig], None) /\
    client o' = None /\ NewBuilder o' = None.
Proof.
  apply (Complete_swallows_config_error sample_sourceName sample_NewForConfig
           factory_without_config ["mycluster"] fresh_options "default" false
           (errorString "invalid configuration")).
  - discriminate.
  - reflexivity.
  - reflexivity.
Defined.

(** ** The further properties at concrete inputs *)

Lemma buildClusterInfo_without_secretName_partial :
  let c' :=
    fst (buildClusterInfo sample_engine sample_order doc_without_secretName
           (new_clusterInfo sample_rootUser sample_port)) in
  Labels c' = "" /\ Topology c' = "" /\ Engine c' = "" /\ Storage c' = 0.
Proof.
  intros c'.
  refine (buildClusterInfo_panic_is_partial sample_engine sample_order
            doc_without_secretName
            (new_clusterInfo sample_rootUser sample_port) c'
            {| concrete := None; asserted := TString |} _).
  vm_compute. reflexivity.
Defined.

Lemma buildClusterInfo_two_labels_twice :
  exists c2,
    buildClusterInfo sample_engine sample_order_rev doc_two_labels
      (fst (buildClusterInfo sample_engine sample_order doc_two_labels
              (new_clusterInfo sample_rootUser sample_port)))
    = (c2, Stmt.Done tt) /\
    Labels c2 = "a:1 b:2 b:2 a:1 ".
Proof.
  destruct (buildClusterInfo_twice sample_engine sample_order sample_order_rev
              doc_two_labels (new_clusterInfo sample_rootUser sample_port)
              (fst (buildClusterInfo sample_engine sample_order doc_two_labels
                      (new_clusterInfo sample_rootUser sample_port))))
    as (c2 & Hrun & _ & Hl); [vm_compute; reflexivity|].
  exists c2. split; [exact Hrun|]. rewrite Hl. vm_compute. reflexivity.
Defined.

Lemma buildClusterInfo_ignores_extras :
  exists c1 c2,
    buildClusterInfo sample_engine sample_order doc_two_labels
      (new_clusterInfo sample_rootUser sample_port) = (c1, Stmt.Done tt) /\
    buildClusterInfo sample_engine sample_order_rev doc_two_labels_extras
      (new_clusterInfo sample_rootUser sample_port) = (c2, Stmt.Done tt) /\
    Labels c1 = "a:1 b:2 " /\ Labels c2 = "b:2 a:1 " /\
    set_Labels "" c2 = set_Labels "" c1.
Proof.
  destruct (buildClusterInfo_reads_only_fields sample_engine sample_order
              sample_order_rev doc_two_labels doc_two_labels_extras
              (new_clusterInfo sample_rootUser sample_port))
    as (c1 & c2 & H1 & H2 & Hl1 & Hl2 & Heq).
  - vm_compute. reflexivity.
  - vm_compute. reflexivity.
  - repeat constructor; vm_compute; reflexivity.
  - exists c1, c2. split; [exact H1|]. split; [exact H2|].
    split; [rewrite Hl1; vm_compute; reflexivity|].
    split; [rewrite Hl2; vm_compute; reflexivity|exact Heq].
Defined.

Lemma Complete_without_namespace :
  Complete sample_sourceName sample_NewForConfig factory_without_namespace
    ["mycluster"] (sample_options false [])
  = (set_EnforceNamespace false (set_Namespace "" (sample_options false [])),
     [CallNamespace],
     Some (errorString "invalid configuration: no context")).
Proof.
  apply (Complete_namespace_error sample_sourceName sample_NewForConfig
           factory_without_namespace ["mycluster"] (sample_options false [])).
  - discriminate.
  - reflexivity.
Defined.

Lemma Complete_without_client :
  exists o',
    Complete sample_sourceName failing_NewForConfig
      (sample_factory "default" true []) ["mycluster"] fresh_options
    = (o', [CallNamespace; CallToRESTConfig;
            CallNewForConfig {| rest.Host := "https://localhost:6443" |}],
       Some (errorString "host must be a URL")) /\
    client o' = None /\ NewBuilder o' = None /\
    BuilderArgs o' = ["databaseclusters"; "mycluster"].
Proof.
  apply (Complete_client_error sample_sourceName failing_NewForConfig
           (sample_factory "default" true []) ["mycluster"] fresh_options
           "default" true {| rest.Host := "https://localhost:6443" |}
           (errorString "host must be a URL")).
  - discriminate.
  - reflexivity.
  - reflexivity.
  - reflexivity.
Defined.

Lemma Complete_sample_ready :
  exists c,
    sample_NewForConfig {| rest.Host := "https://localhost:6443" |} = inl c /\
    let o' := fst (fst (Complete sample_sourceName sample_NewForConfig
                          (sample_factory "default" true []) ["mycluster"]
                          (sample_options true []))) in
    client o' = Some c /\
    BuilderArgs o' = ["databaseclusters"; "mycluster"] /\
    Namespace o' = "default" /\ EnforceNamespace o' = false.
Proof.
  destruct (Complete_ready sample_sourceName sample_NewForConfig
              (sample_factory "default" true []) ["mycluster"]
              (sample_options true [])
              (fst (fst (Complete sample_sourceName sample_NewForConfig
                           (sample_factory "default" true []) ["mycluster"]
                           (sample_options true []))))
              [CallNamespace; CallToRESTConfig;
               CallNewForConfig {| rest.Host := "https://localhost:6443" |}]
              {| rest.Host := "https://localhost:6443" |})
    as (c & Hc & Hcl & _ & Hargs & Hns & Henf); try reflexivity.
  exists c. split; [exact Hc|]. cbv zeta. auto.
Defined.

Lemma Run_partial_enumeration :
  Run sample_rootUser sample_port sample_engine sample_order
    (sample_options_with (Some sample_client)
       (Some (partial_builder [sample_info "default" "mycluster"]
                (errorString "no matches for kind"))))
  = ([CallDo (Run_builder
                (sample_options_with (Some sample_client)
                   (Some (partial_builder [sample_info "default" "mycluster"]
                            (errorString "no matches for kind")))))],
     Returns (Some (errorString "no matches for kind"))).
Proof.
  apply (Run_locator_error sample_rootUser sample_port sample_engine
           sample_order _
           (partial_builder [sample_info "default" "mycluster"]
              (errorString "no matches for kind"))
           [sample_info "default" "mycluster"]).
  - reflexivity.
  - right. split; reflexivity.
Defined.


Lemma Run_sample_batch_gets :
  "default" = Namespace (sample_options false sample_batch) /\
  exists newBuilder i,
    NewBuilder (sample_options false sample_batch) = Some newBuilder /\
    In i (fst (resource.Infos
                 (newBuilder (Run_builder (sample_options false sample_batch))))) /\
    sample_gvr = meta.Resource (resource.Mapping i) /\
    "gone" = resource.Name i.
Proof.
  apply (Run_gets_only_the_batch sample_rootUser sample_port sample_engine
           sample_order (sample_options false sample_batch)
           sample_gvr "default" "gone").
  vm_compute. do 3 right. left. reflexivity.
Defined.

Lemma Run_sample_batch_prints :
  let ci :=
    summary sample_rootUser sample_port sample_engine sample_order
      (sample_options false sample_batch) sample_client
      (sample_info "default" "mycluster") in
  RootUser ci = "root" /\ DBPort ci = "3306" /\ Engine ci = "wesql" /\
  Storage ci = 2 /\
  (Topology ci = "Standalone" /\ Instances ci = 1 \/
   Topology ci = "Cluster" /\ Instances ci <> 1).
Proof.
  intros ci.
  refine (proj2 (Run_prints_only_projections sample_rootUser sample_port
                   sample_engine sample_order
                   (sample_options false sample_batch) ci _)).
  vm_compute. do 2 right. left. reflexivity.
Defined.

Lemma Run_sample_batch_error :
  exists newBuilder,
    NewBuilder (sample_options false sample_batch) = Some newBuilder /\
    (resource.Err (newBuilder (Run_builder (sample_options false sample_batch)))
     = Some (errorString "databaseclusters gone not found") \/
     snd (resource.Infos
            (newBuilder (Run_builder (sample_options false sample_batch))))
     = Some (errorString "databaseclusters gone not found") \/
     exists c i,
       client (sample_options false sample_batch) = Some c /\
       In i (fst (resource.Infos
                    (newBuilder
                       (Run_builder (sample_options false sample_batch))))) /\
       fetch (sample_options false sample_batch) c i
       = inr (errorString "databaseclusters gone not found")).
Proof.
  apply (Run_error_from_collaborator sample_rootUser sample_port sample_engine
           sample_order (sample_options false sample_batch)
           (errorString "databaseclusters gone not found")).
  vm_compute. reflexivity.
Defined.

Lemma Run_empty_batch_ErrOut :
  "No resources found in default namespace." ++ newline
  = no_resources_found (sample_options false []) /\
  snd (Run sample_rootUser sample_port sample_engine sample_order
         (sample_options false [])) = Returns None /\
  exists newBuilder,
    NewBuilder (sample_options false []) = Some newBuilder /\
    resource.Infos (newBuilder (Run_builder (sample_options false [])))
    = ([], None).
Proof.
  apply (Run_ErrOut_only_when_empty sample_rootUser sample_port sample_engine
           sample_order (sample_options false [])
           ("No resources found in default namespace." ++ newline)).
  vm_compute. do 1 right. left. reflexivity.
Defined.

Lemma Run_sample_batch_order :
  exists k,
    printed (fst (Run sample_rootUser sample_port sample_engine sample_order
                    (sample_options false sample_batch)))
    = map (fun i => (resource.Namespace i, resource.Name i))
          (take k sample_batch) /\
    (snd (Run sample_rootUser sample_port sample_engine sample_order
            (sample_options false sample_batch)) = Returns None ->
     k = length sample_batch).
Proof.
  apply (Run_prints_in_order sample_rootUser sample_port sample_engine
           sample_order (sample_options false sample_batch)
           (sample_builder sample_batch) sample_batch); reflexivity.
Defined.

Lemma describe_without_config :
  NewDescribeCmd_Run sample_rootUser sample_port sample_engine
    sample_sourceName sample_order sample_NewForConfig factory_without_config
    ["mycluster"]
  = ([CallNamespace; CallToRESTConfig], Crashed PanicNilDereference).
Proof.
  apply (describe_config_failure_crashes sample_rootUser sample_port
           sample_engine sample_sourceName sample_order sample_NewForConfig
           factory_without_config ["mycluster"] "default" false
           (errorString "invalid configuration")).
  - discriminate.
  - reflexivity.
  - reflexivity.
Defined.

Lemma describe_sample_nothing_found :
  exists b,
    NewDescribeCmd_Run sample_rootUser sample_port sample_engine
      sample_sourceName sample_order sample_NewForConfig
      (sample_factory "default" true []) ["mycluster"]
    = ([ CallNamespace; CallToRESTConfig;
         CallNewForConfig {| rest.Host := "https://localhost:6443" |};
         CallDo b;
         ErrOut ("No resources found in default namespace." ++ newline) ],
       Completed) /\
    resource.AllNamespaces b = false /\
    resource.ResourceTypeOrNameArgs b = (true, ["databaseclusters"; "mycluster"]).
Proof.
  eexists. split.
  - apply (describe_nothing_found sample_rootUser sample_port sample_engine
             sample_sourceName sample_order sample_NewForConfig
             (sample_factory "default" true []) ["mycluster"] "default" true
             {| rest.Host := "https://localhost:6443" |} sample_client);
      try reflexivity.
    discriminate.
  - split; reflexivity.
Defined.

Lemma describe_without_namespace :
  snd (NewDescribeCmd_Run sample_rootUser sample_port sample_engine
         sample_sourceName sample_order sample_NewForConfig
         factory_without_namespace ["mycluster"])
  = Fatal (errorString "invalid configuration: no context").
Proof.
  refine (proj1 (describe_fatal_before_query sample_rootUser sample_port
                   sample_engine sample_sourceName sample_order
                   sample_NewForConfig factory_without_namespace ["mycluster"]
                   (errorString "invalid configuration: no context") _)).
  reflexivity.
Defined.
